(** * tfconfig: metadata extraction from a Terraform module (load_hcl.go)

    A shallow embedding of [loadModule] from [tfconfig/load_hcl.go] and the
    properties of the extraction it performs.

    The function walks the blocks of every primary file of a module
    directory, mutating one [Module] value and appending to one list of
    diagnostics. It is embedded as a state-and-panic monad over that pair.

    The HCL library (packages hcl, gohcl, hclsyntax, hclparse, cty and
    encoding/json) is outside the repository: its types are kept abstract
    and its operations are the fields of the class [HclLibrary]. *)

From Stdlib Require Import ZArith Ascii String List.
From stdpp Require Import base tactics option list strings gmap fin_maps.

Local Open Scope string_scope.
Local Open Scope list_scope.

(** ** Diagnostics of the HCL library *)

Inductive DiagnosticSeverity : Type :=
  | DiagError
  | DiagWarning.

Definition DiagnosticSeverity_eqb (a b : DiagnosticSeverity) : bool :=
  match a, b with
  | DiagError, DiagError => true
  | DiagWarning, DiagWarning => true
  | _, _ => false
  end.

(** [hcl.Diagnostic], over the library's source ranges. *)
Record hclDiagnostic (Range : Type) : Type := mkHclDiagnostic {
  Severity : DiagnosticSeverity;
  Summary : string;
  Detail : string;
  Subject : option Range;
  Context_ : option Range
}.
Arguments mkHclDiagnostic {Range}.
Arguments Severity {Range}.
Arguments Summary {Range}.
Arguments Detail {Range}.
Arguments Subject {Range}.
Arguments Context_ {Range}.

(** [hcl.Diagnostics.HasErrors]: some diagnostic has severity [DiagError]. *)
Definition HasErrors {Range : Type} (diags : list (hclDiagnostic Range)) : bool :=
  existsb (fun d => DiagnosticSeverity_eqb (Severity d) DiagError) diags.

(** ** Traversals: [hcl.Traversal] is a slice of [hcl.Traverser] *)

Inductive Traverser (Key : Type) : Type :=
  | TraverseRoot (name : string)
  | TraverseAttr (name : string)
  | TraverseIndex (key : Key)
  | TraverseSplat.
Arguments TraverseRoot {Key}.
Arguments TraverseAttr {Key}.
Arguments TraverseIndex {Key}.
Arguments TraverseSplat {Key}.

(** ** The operations of the HCL library that [loadModule] calls

    Every evaluation in [loadModule] passes a nil evaluation context, so the
    context is not an argument here. *)
Class HclLibrary : Type := {
  (** hcl.Range *)
  Range : Type;
  (** hcl.Expression *)
  Expression : Type;
  (** cty.Value *)
  ctyValue : Type;
  (** the key of an index step of a traversal (a cty.Value) *)
  ctyKey : Type;
  (** the Go [error] values returned by the JSON functions *)
  goError : Type;
  (** the bytes produced by [ctyjson.Marshal] *)
  jsonBytes : Type;
  (** the non-nil values [json.Unmarshal] stores in an [interface{}] *)
  goValue : Type;

  (** [hcl.ExprAsKeyword(expr)]: the keyword, or the empty string *)
  ExprAsKeyword : Expression -> string;
  (** [gohcl.DecodeExpression(expr, nil, &s)] for a string variable [s]
      that starts empty: the final [s] and the diagnostics *)
  DecodeExpression : Expression -> string * list (hclDiagnostic Range);
  (** [hcl.AbsTraversalForExpr(expr)] *)
  AbsTraversalForExpr :
    Expression -> list (Traverser ctyKey) * list (hclDiagnostic Range);
  (** [hclsyntax.ParseTraversalAbs([]byte(s), "", hcl.Pos{})] *)
  ParseTraversalAbs :
    string -> list (Traverser ctyKey) * list (hclDiagnostic Range);
  (** [expr.Value(nil)] *)
  ExprValue : Expression -> ctyValue * list (hclDiagnostic Range);
  (** [expr.Range()] *)
  ExprRange : Expression -> Range;
  (** [val.IsWhollyKnown()] *)
  IsWhollyKnown : ctyValue -> bool;
  (** [ctyjson.Marshal(val, val.Type())] *)
  ctyjson_Marshal : ctyValue -> jsonBytes + goError;
  (** [json.Unmarshal(valJSON, &def)] for an [interface{}] variable [def]:
      [None] is the nil interface *)
  json_Unmarshal : jsonBytes -> option goValue + goError
}.

Section Model.

Context `{Hcl : HclLibrary}.

Abbreviation hclDiagnostics := (list (hclDiagnostic Range)).
Abbreviation Traversal := (list (Traverser ctyKey)).

(** [hcl.Attribute]; only the expression is read. *)
Record Attribute : Type := mkAttribute {
  AttrName : string;
  Expr : Expression
}.

(** The schemas of schema.go, by name: [loadModule] only passes them on to
    the library. *)
Inductive BodySchema : Type :=
  | rootSchema
  | terraformBlockSchema
  | variableSchema
  | outputSchema
  | providerConfigSchema
  | resourceSchema.

(** [hcl.Body] is an interface: a body is what its methods return.
    [PartialContent] gives the attributes, the blocks and the diagnostics
    (the remaining body is never used); [JustAttributes] the attributes and
    the diagnostics. *)
Inductive Body : Type :=
  | mkBody
      (partialContent :
         BodySchema -> gmap string Attribute * list Block * hclDiagnostics)
      (justAttributes : gmap string Attribute * hclDiagnostics)
with Block : Type :=
  | mkBlock (type : string) (labels : list string) (defRange : Range)
            (body : Body).

Definition PartialContent (b : Body) (schema : BodySchema)
  : gmap string Attribute * list Block * hclDiagnostics :=
  match b with mkBody pc _ => pc schema end.

Definition JustAttributes (b : Body) : gmap string Attribute * hclDiagnostics :=
  match b with mkBody _ ja => ja end.

Definition Type_ (b : Block) : string :=
  match b with mkBlock t _ _ _ => t end.

Definition Labels (b : Block) : list string :=
  match b with mkBlock _ l _ _ => l end.

Definition DefRange (b : Block) : Range :=
  match b with mkBlock _ _ r _ => r end.

Definition BlockBody (b : Block) : Body :=
  match b with mkBlock _ _ _ body => body end.

(** ** The data model of the package (module.go, variable.go, output.go,
    resource.go, provider_ref.go, diagnostic.go, source_pos.go) *)

(** Modelled from the spec: [SourcePos], the source file and line of a
    declaring block; the type is declared outside load_hcl.go. *)
Record SourcePos : Type := mkSourcePos {
  Filename : string;
  Line : Z
}.

(** Modelled from the spec: [Variable] (a reserved word here, hence
    [Variable_]) with its fields [Name], [TypeHint],
    [Description], [Default] and [Pos]; declared outside load_hcl.go.
    [Default] is an [interface{}]: [None] is nil. *)
Record Variable_ : Type := mkVariable {
  VarName : string;
  TypeHint : string;
  VarDescription : string;
  Default : option goValue;
  VarPos : SourcePos
}.

(** Modelled from the spec: [Output] with [Name], [Description] and [Pos];
    declared outside load_hcl.go. *)
Record Output : Type := mkOutput {
  OutName : string;
  OutDescription : string;
  OutPos : SourcePos
}.

(** Modelled from the spec: [ProviderRef] with [Name] and [Alias]; declared
    outside load_hcl.go. *)
Record ProviderRef : Type := mkProviderRef {
  ProvName : string;
  Alias : string
}.

(** Modelled from the spec: the enumeration [ResourceMode]; declared outside
    load_hcl.go. *)
Inductive ResourceMode : Type :=
  | ManagedResourceMode
  | DataResourceMode.

#[global] Instance ResourceMode_eq_dec : EqDecision ResourceMode.
Proof. solve_decision. Defined.

(** Modelled from the spec: [Resource] with [Mode], [Type], [Name],
    [Provider] and [Pos]; declared outside load_hcl.go. *)
Record Resource : Type := mkResource {
  Mode : ResourceMode;
  ResType : string;
  ResName : string;
  Provider : ProviderRef;
  ResPos : SourcePos
}.

(** Modelled from the spec: [Module] (a reserved word here, hence
    [Module_]), the root output, with the six
    collections the spec lists; declared outside load_hcl.go. *)
Record Module_ : Type := mkModule {
  RequiredCore : list string;
  RequiredProviders : gmap string (list string);
  Variables : gmap string Variable_;
  Outputs : gmap string Output;
  ManagedResources : gmap string Resource;
  DataResources : gmap string Resource
}.

(** Modelled from the spec: [newModule], which creates the module and its
    empty collections once per extraction call; defined outside
    load_hcl.go. *)
Definition newModule (dir : string) : Module_ :=
  {| RequiredCore := [];
     RequiredProviders := ∅;
     Variables := ∅;
     Outputs := ∅;
     ManagedResources := ∅;
     DataResources := ∅ |}.

(** Modelled from the spec: the package's own [Diagnostic], with [Severity],
    [Summary], [Detail] and an optional [Pos]; declared outside
    load_hcl.go. *)
Record Diagnostic : Type := mkDiagnostic {
  DiagSeverity : DiagnosticSeverity;
  DiagSummary : string;
  DiagDetail : string;
  DiagPos : option SourcePos
}.

(** Modelled from the spec: [resourceTypeDefaultProviderName], the substring
    of the resource type up to and excluding the first underscore, or the
    whole type if it has none; defined outside load_hcl.go. *)
Fixpoint resourceTypeDefaultProviderName (typeName : string) : string :=
  match typeName with
  | EmptyString => EmptyString
  | String c rest =>
      if Ascii.eqb c "_"%char then EmptyString
      else String c (resourceTypeDefaultProviderName rest)
  end.

(** ** The rest of the package and the file system, as [loadModule] sees
    them *)
Class Collaborators : Type := {
  (** [dirFiles(dir)] of the package: primary paths, override paths and
      diagnostics *)
  dirFiles : string -> list string * list string * hclDiagnostics;
  (** [parser.ParseJSONFile(filename)]: the body of the file, [None] for a
      nil file *)
  ParseJSONFile : string -> option Body * hclDiagnostics;
  (** [parser.ParseHCLFile(filename)] *)
  ParseHCLFile : string -> option Body * hclDiagnostics;
  (** [sourcePosHCL(rng)] of the package *)
  sourcePosHCL : Range -> SourcePos;
  (** [r.MapKey()] of the package: the key of a resource in its map *)
  MapKey : Resource -> string
}.

Context `{Env : Collaborators}.

(** Modelled from the spec: [diagnosticsHCL], which re-expresses every
    library diagnostic, in order, as a [Diagnostic] of the package; defined
    outside load_hcl.go. *)
Definition diagnosticHCL (d : hclDiagnostic Range) : Diagnostic :=
  {| DiagSeverity := Severity d;
     DiagSummary := Summary d;
     DiagDetail := Detail d;
     DiagPos := sourcePosHCL <$> Subject d |}.

Definition diagnosticsHCL (diags : hclDiagnostics) : list Diagnostic :=
  diagnosticHCL <$> diags.

(** [strings.HasSuffix(s, suffix)] *)
Definition HasSuffix (s suffix : string) : bool :=
  (String.length suffix <=? String.length s)%nat
  && String.eqb
       (substring (String.length s - String.length suffix)
                  (String.length suffix) s)
       suffix.

(** ** The state of a run and its monad

    [loadModule] threads two mutable things through every statement: the
    module [mod] and the slice [diags], here [smod] and [sdiags]. A Go panic ends the run. *)

Record State : Type := mkState {
  smod : Module_;
  sdiags : hclDiagnostics
}.

Inductive Panic : Type :=
  | IndexOutOfRange
  | RootNameOfRelativeTraversal
  | FailedToSerializeDefault (err : goError)
  | FailedToReparseDefault (err : goError)
  | UnhandledBlockType (type : string).

Inductive Result (A : Type) : Type :=
  | Ok (a : A)
  | Panicked (p : Panic).
Arguments Ok {A}.
Arguments Panicked {A}.

Definition M (A : Type) : Type := State -> Result (A * State).

#[global] Instance M_ret : MRet M := fun A a s => Ok (a, s).

#[global] Instance M_bind : MBind M := fun A B f m s =>
  match m s with
  | Ok (a, s') => f a s'
  | Panicked p => Panicked p
  end.

Definition panic {A : Type} (p : Panic) : M A := fun _ => Panicked p.

(** [diags = append(diags, ds...)] *)
Definition appendDiags (ds : hclDiagnostics) : M unit :=
  fun s => Ok (tt, {| smod := smod s; sdiags := sdiags s ++ ds |}).

Definition getMod : M Module_ := fun s => Ok (smod s, s).

Definition modifyMod (f : Module_ -> Module_) : M unit :=
  fun s => Ok (tt, {| smod := f (smod s); sdiags := sdiags s |}).

(** [for _, x := range xs { body }] *)
Fixpoint forEach {A : Type} (xs : list A) (body : A -> M unit) : M unit :=
  match xs with
  | [] => mret tt
  | x :: rest => body x;; forEach rest body
  end.

(** [labels[i]], which panics out of range *)
Definition index (labels : list string) (i : nat) : M string :=
  match labels !! i with
  | Some l => mret l
  | None => panic IndexOutOfRange
  end.

(** Assignments to single fields of the records. *)

Definition set_RequiredCore (x : list string) (m : Module_) : Module_ :=
  {| RequiredCore := x;
     RequiredProviders := RequiredProviders m;
     Variables := Variables m;
     Outputs := Outputs m;
     ManagedResources := ManagedResources m;
     DataResources := DataResources m |}.

Definition set_RequiredProviders (x : gmap string (list string)) (m : Module_)
  : Module_ :=
  {| RequiredCore := RequiredCore m;
     RequiredProviders := x;
     Variables := Variables m;
     Outputs := Outputs m;
     ManagedResources := ManagedResources m;
     DataResources := DataResources m |}.

Definition set_Variables (x : gmap string Variable_) (m : Module_) : Module_ :=
  {| RequiredCore := RequiredCore m;
     RequiredProviders := RequiredProviders m;
     Variables := x;
     Outputs := Outputs m;
     ManagedResources := ManagedResources m;
     DataResources := DataResources m |}.

Definition set_Outputs (x : gmap string Output) (m : Module_) : Module_ :=
  {| RequiredCore := RequiredCore m;
     RequiredProviders := RequiredProviders m;
     Variables := Variables m;
     Outputs := x;
     ManagedResources := ManagedResources m;
     DataResources := DataResources m |}.

Definition set_ManagedResources (x : gmap string Resource) (m : Module_)
  : Module_ :=
  {| RequiredCore := RequiredCore m;
     RequiredProviders := RequiredProviders m;
     Variables := Variables m;
     Outputs := Outputs m;
     ManagedResources := x;
     DataResources := DataResources m |}.

Definition set_DataResources (x : gmap string Resource) (m : Module_)
  : Module_ :=
  {| RequiredCore := RequiredCore m;
     RequiredProviders := RequiredProviders m;
     Variables := Variables m;
     Outputs := Outputs m;
     ManagedResources := ManagedResources m;
     DataResources := x |}.

Definition set_TypeHint (x : string) (v : Variable_) : Variable_ :=
  {| VarName := VarName v; TypeHint := x; VarDescription := VarDescription v;
     Default := Default v; VarPos := VarPos v |}.

Definition set_VarDescription (x : string) (v : Variable_) : Variable_ :=
  {| VarName := VarName v; TypeHint := TypeHint v; VarDescription := x;
     Default := Default v; VarPos := VarPos v |}.

Definition set_Default (x : option goValue) (v : Variable_) : Variable_ :=
  {| VarName := VarName v; TypeHint := TypeHint v;
     VarDescription := VarDescription v; Default := x; VarPos := VarPos v |}.

Definition set_OutDescription (x : string) (o : Output) : Output :=
  {| OutName := OutName o; OutDescription := x; OutPos := OutPos o |}.

Definition set_Provider (x : ProviderRef) (r : Resource) : Resource :=
  {| Mode := Mode r; ResType := ResType r; ResName := ResName r;
     Provider := x; ResPos := ResPos r |}.

(** ** Pointers into the maps

    [v := &Variable{...}; mod.Variables[name] = v] stores a pointer, and the
    later assignments [v.TypeHint = ...] write through it: the entry of the
    map under [name] changes. Within one block nothing else writes to that
    map, so the object [v] points to is the entry under [name]. The same
    holds for [o] in [mod.Outputs] and for [r] in its resource map. *)

Definition storeVariable (name : string) (v : Variable_) : M unit :=
  modifyMod (fun m => set_Variables (<[name := v]> (Variables m)) m).

Definition writeVariable (name : string) (f : Variable_ -> Variable_) : M unit :=
  modifyMod (fun m => set_Variables (alter f name (Variables m)) m).

Definition storeOutput (name : string) (o : Output) : M unit :=
  modifyMod (fun m => set_Outputs (<[name := o]> (Outputs m)) m).

Definition writeOutput (name : string) (f : Output -> Output) : M unit :=
  modifyMod (fun m => set_Outputs (alter f name (Outputs m)) m).

(** [resourcesMap], which the inner switch binds to [mod.ManagedResources]
    or to [mod.DataResources]. *)
Definition resourcesMap (mode : ResourceMode) (m : Module_)
  : gmap string Resource :=
  match mode with
  | ManagedResourceMode => ManagedResources m
  | DataResourceMode => DataResources m
  end.

Definition set_resourcesMap (mode : ResourceMode) (x : gmap string Resource)
    (m : Module_) : Module_ :=
  match mode with
  | ManagedResourceMode => set_ManagedResources x m
  | DataResourceMode => set_DataResources x m
  end.

Definition storeResource (mode : ResourceMode) (key : string) (r : Resource)
  : M unit :=
  modifyMod (fun m => set_resourcesMap mode (<[key := r]> (resourcesMap mode m)) m).

Definition writeResource (mode : ResourceMode) (key : string)
    (f : Resource -> Resource) : M unit :=
  modifyMod (fun m => set_resourcesMap mode (alter f key (resourcesMap mode m)) m).

(** [mod.RequiredProviders[name] = append(mod.RequiredProviders[name], version)];
    reading a missing key of a Go map gives the nil slice. *)
Definition appendRequiredProvider (name version : string) : M unit :=
  modifyMod (fun m =>
    set_RequiredProviders
      (<[name := (default [] (RequiredProviders m !! name) ++ [version])%list]>
         (RequiredProviders m)) m).

(** ** The diagnostics [loadModule] builds itself *)

(** A string between double quote characters, as the Go literals of the
    details below escape it. *)
Definition quoted (s : string) : string :=
  String (ascii_of_nat 34) s +:+ String (ascii_of_nat 34) EmptyString.

Definition noConfigurationFiles (dir : string) : hclDiagnostic Range :=
  {| Severity := DiagError;
     Summary := "No Terraform configuration files";
     Detail := "Module directory " +:+ dir
               +:+ " does not contain any .tf or .tf.json files.";
     Subject := None;
     Context_ := None |}.

Definition invalidVariableTypeHint (attr : Attribute) : hclDiagnostic Range :=
  {| Severity := DiagError;
     Summary := "Invalid variable type hint";
     Detail := "The " +:+ quoted "type" +:+
               " argument must either be a type keyword or a quoted string.";
     Subject := Some (ExprRange (Expr attr));
     Context_ := None |}.

Definition duplicateResourceBlock (key : string) (block : Block)
  : hclDiagnostic Range :=
  {| Severity := DiagError;
     Summary := "Duplicate resource block";
     Detail := "The resource " +:+ key +:+ " was already defined.";
     Subject := Some (DefRange block);
     Context_ := None |}.

Definition invalidProviderReference (attr : Attribute) : hclDiagnostic Range :=
  {| Severity := DiagError;
     Summary := "Invalid provider reference";
     Detail := "Provider argument requires a provider name followed by an optional alias, like "
               +:+ quoted "aws.foo" +:+ ".";
     Subject := Some (ExprRange (Expr attr));
     Context_ := None |}.

(** ** The [terraform] block (lines 49-76) *)

(** Lines 53-60: the [required_version] attribute. *)
Definition terraformRequiredVersion (attrs : gmap string Attribute) : M unit :=
  match attrs !! "required_version" with
  | Some attr =>
      let '(version, valDiags) := DecodeExpression (Expr attr) in
      appendDiags valDiags;;
      if HasErrors valDiags then mret tt
      else modifyMod (fun m =>
             set_RequiredCore (RequiredCore m ++ [version])%list m)
  | None => mret tt
  end.

(** Lines 68-75: one attribute of a [required_providers] block. *)
Definition requiredProvider (entry : string * Attribute) : M unit :=
  let '(name, attr) := entry in
  let '(version, valDiags) := DecodeExpression (Expr attr) in
  appendDiags valDiags;;
  if HasErrors valDiags then mret tt
  else appendRequiredProvider name version.

(** Lines 62-76: a nested block of [terraform]. Go leaves the order of
    [range attrs] over a map open; [map_to_list] fixes one order. Every
    name occurs once in the map, so only the order of the diagnostics
    depends on it. *)
Definition requiredProvidersBlock (block : Block) : M unit :=
  let '(attrs, attrDiags) := JustAttributes (BlockBody block) in
  appendDiags attrDiags;;
  forEach (map_to_list attrs) requiredProvider.

Definition terraformBlock (block : Block) : M unit :=
  let '(attrs, blocks, contentDiags) :=
    PartialContent (BlockBody block) terraformBlockSchema in
  appendDiags contentDiags;;
  terraformRequiredVersion attrs;;
  forEach blocks requiredProvidersBlock.

(** ** The [variable] block (lines 78-144) *)

(** Lines 90-100: the keyword, else the quoted string when it decodes
    without errors. The diagnostics of that decoding are not kept. *)
Definition decodeTypeHint (attr : Attribute) : string :=
  let typeHint := ExprAsKeyword (Expr attr) in
  if String.eqb typeHint "" then
    let '(typeHintAsStr, valDiags) := DecodeExpression (Expr attr) in
    if HasErrors valDiags then typeHint else typeHintAsStr
  else typeHint.

(** Lines 89-112. *)
Definition variableType (name : string) (attrs : gmap string Attribute)
  : M unit :=
  match attrs !! "type" with
  | Some attr =>
      let typeHint := decodeTypeHint attr in
      (if String.eqb typeHint "" then appendDiags [invalidVariableTypeHint attr]
       else mret tt);;
      writeVariable name (set_TypeHint typeHint)
  | None => mret tt
  end.

(** Lines 114-119. *)
Definition variableDescription (name : string) (attrs : gmap string Attribute)
  : M unit :=
  match attrs !! "description" with
  | Some attr =>
      let '(description, valDiags) := DecodeExpression (Expr attr) in
      appendDiags valDiags;;
      writeVariable name (set_VarDescription description)
  | None => mret tt
  end.

(** Lines 121-144. *)
Definition variableDefault (name : string) (attrs : gmap string Attribute)
  : M unit :=
  match attrs !! "default" with
  | Some attr =>
      let '(val, valDiags) := ExprValue (Expr attr) in
      appendDiags valDiags;;
      if IsWhollyKnown val then
        match ctyjson_Marshal val with
        | inr err => panic (FailedToSerializeDefault err)
        | inl valJSON =>
            match json_Unmarshal valJSON with
            | inr err => panic (FailedToReparseDefault err)
            | inl def => writeVariable name (set_Default def)
            end
        end
      else mret tt
  | None => mret tt
  end.

Definition variableBlock (block : Block) : M unit :=
  let '(attrs, _, contentDiags) :=
    PartialContent (BlockBody block) variableSchema in
  appendDiags contentDiags;;
  name ← index (Labels block) 0;
  storeVariable name
    {| VarName := name; TypeHint := ""; VarDescription := "";
       Default := None; VarPos := sourcePosHCL (DefRange block) |};;
  variableType name attrs;;
  variableDescription name attrs;;
  variableDefault name attrs.

(** ** The [output] block (lines 146-163) *)

Definition outputDescription (name : string) (attrs : gmap string Attribute)
  : M unit :=
  match attrs !! "description" with
  | Some attr =>
      let '(description, valDiags) := DecodeExpression (Expr attr) in
      appendDiags valDiags;;
      writeOutput name (set_OutDescription description)
  | None => mret tt
  end.

Definition outputBlock (block : Block) : M unit :=
  let '(attrs, _, contentDiags) :=
    PartialContent (BlockBody block) outputSchema in
  appendDiags contentDiags;;
  name ← index (Labels block) 0;
  storeOutput name
    {| OutName := name; OutDescription := "";
       OutPos := sourcePosHCL (DefRange block) |};;
  outputDescription name attrs.

(** ** The [provider] block (lines 165-185) *)

(** Lines 172-179. *)
Definition providerVersion (name : string) (attrs : gmap string Attribute)
  : M unit :=
  match attrs !! "version" with
  | Some attr =>
      let '(version, valDiags) := DecodeExpression (Expr attr) in
      appendDiags valDiags;;
      if HasErrors valDiags then mret tt
      else appendRequiredProvider name version
  | None => mret tt
  end.

(** Lines 183-185. *)
Definition providerEnsureEntry (name : string) : M unit :=
  m ← getMod;
  match RequiredProviders m !! name with
  | Some _ => mret tt
  | None =>
      modifyMod (fun m =>
        set_RequiredProviders (<[name := []]> (RequiredProviders m)) m)
  end.

Definition providerBlock (block : Block) : M unit :=
  let '(attrs, _, contentDiags) :=
    PartialContent (BlockBody block) providerConfigSchema in
  appendDiags contentDiags;;
  name ← index (Labels block) 0;
  providerVersion name attrs;;
  providerEnsureEntry name.

(** ** The [resource] and [data] blocks (lines 187-273) *)

(** [traversal.RootName()] of the library: the name of the root step; it
    panics on a relative traversal. *)
Definition RootName (traversal : Traversal) : M string :=
  match traversal with
  | TraverseRoot name :: _ => mret name
  | _ => panic RootNameOfRelativeTraversal
  end.

(** Lines 229-243: the naked traversal, else the quoted string parsed as
    one; nil when neither works. The diagnostics of the three decodings
    are not kept. *)
Definition providerTraversal (attr : Attribute) : Traversal :=
  let '(traversal, travDiags) := AbsTraversalForExpr (Expr attr) in
  if HasErrors travDiags then
    let '(travStr, valDiags) := DecodeExpression (Expr attr) in
    if HasErrors valDiags then []
    else
      let '(traversal, strDiags) := ParseTraversalAbs travStr in
      if HasErrors strDiags then [] else traversal
  else traversal.

(** Lines 249-254: the alias is the second step when it is an attribute
    step. *)
Definition traversalAlias (traversal : Traversal) : string :=
  match traversal with
  | _ :: TraverseAttr name :: _ => name
  | _ => ""
  end.

(** Lines 225-273. *)
Definition resourceProvider (mode : ResourceMode) (key typeName : string)
    (attrs : gmap string Attribute) : M unit :=
  match attrs !! "provider" with
  | Some attr =>
      let traversal := providerTraversal attr in
      match traversal with
      | [] => appendDiags [invalidProviderReference attr]
      | _ :: _ =>
          providerName ← RootName traversal;
          writeResource mode key
            (set_Provider {| ProvName := providerName;
                             Alias := traversalAlias traversal |})
      end
  | None =>
      writeResource mode key
        (set_Provider {| ProvName := resourceTypeDefaultProviderName typeName;
                         Alias := "" |})
  end.

(** Lines 187-273, for the mode the inner switch on [block.Type] picks. *)
Definition resourceBlock (mode : ResourceMode) (block : Block) : M unit :=
  let '(attrs, _, contentDiags) :=
    PartialContent (BlockBody block) resourceSchema in
  appendDiags contentDiags;;
  typeName ← index (Labels block) 0;
  name ← index (Labels block) 1;
  let r := {| Mode := mode; ResType := typeName; ResName := name;
              Provider := {| ProvName := ""; Alias := "" |};
              ResPos := sourcePosHCL (DefRange block) |} in
  let key := MapKey r in
  m ← getMod;
  match resourcesMap mode m !! key with
  | Some _ => appendDiags [duplicateResourceBlock key block]
  | None =>
      storeResource mode key r;;
      resourceProvider mode key typeName attrs
  end.

(** ** The switch on [block.Type] (lines 47-281) *)

Definition processBlock (block : Block) : M unit :=
  let type := Type_ block in
  if String.eqb type "terraform" then terraformBlock block
  else if String.eqb type "variable" then variableBlock block
  else if String.eqb type "output" then outputBlock block
  else if String.eqb type "provider" then providerBlock block
  else if String.eqb type "resource" then resourceBlock ManagedResourceMode block
  else if String.eqb type "data" then resourceBlock DataResourceMode block
  else if String.eqb type "module" then mret tt
  else panic (UnhandledBlockType type).

(** ** One file (lines 30-283) and the whole run (lines 16-286) *)

Definition parseFile (filename : string) : option Body * hclDiagnostics :=
  if HasSuffix filename ".json" then ParseJSONFile filename
  else ParseHCLFile filename.

Definition loadFile (filename : string) : M unit :=
  let '(file, fileDiags) := parseFile filename in
  appendDiags fileDiags;;
  match file with
  | None => mret tt
  | Some body =>
      let '(_, blocks, contentDiags) := PartialContent body rootSchema in
      appendDiags contentDiags;;
      forEach blocks processBlock
  end.

(** Lines 17-28: the state before the first file. *)
Definition initialState (dir : string) : State :=
  let '(primaryPaths, overridePaths, diags) := dirFiles dir in
  {| smod := newModule dir;
     sdiags :=
       if (length primaryPaths =? 0)%nat && (length overridePaths =? 0)%nat
       then diags ++ [noConfigurationFiles dir]
       else diags |}.

(** The primary paths; the override paths are only counted. *)
Definition primaryPathsOf (dir : string) : list string :=
  let '(primaryPaths, _, _) := dirFiles dir in primaryPaths.

(** The run before the final conversion of the diagnostics. *)
Definition runModule (dir : string) : Result (unit * State) :=
  forEach (primaryPathsOf dir) loadFile (initialState dir).

Definition loadModule (dir : string) : Result (Module_ * list Diagnostic) :=
  match runModule dir with
  | Ok (_, s) => Ok (smod s, diagnosticsHCL (sdiags s))
  | Panicked p => Panicked p
  end.

(** ** What a run reads, in the order it reads it

    These functions describe the input of a run without running it: the
    blocks in file-then-block order, and for each block what it declares.
    The theorems relate them to the state [loadModule] builds. *)

(** The top-level blocks of a primary file; none when the file is nil. *)
Definition fileBlocks (filename : string) : list Block :=
  match parseFile filename with
  | (Some body, _) => (PartialContent body rootSchema).1.2
  | (None, _) => []
  end.

Definition allBlocks (dir : string) : list Block :=
  flat_map fileBlocks (primaryPathsOf dir).

(** The string an attribute decodes to, when it is present and decodes
    without error diagnostics. *)
Definition acceptedString (attrs : gmap string Attribute) (key : string)
  : list string :=
  match attrs !! key with
  | Some attr =>
      let '(version, valDiags) := DecodeExpression (Expr attr) in
      if HasErrors valDiags then [] else [version]
  | None => []
  end.

(** The diagnostics of decoding an attribute as a string, when present. *)
Definition stringDiags (attrs : gmap string Attribute) (key : string)
  : hclDiagnostics :=
  match attrs !! key with
  | Some attr => (DecodeExpression (Expr attr)).2
  | None => []
  end.

(** The core version constraints of a [terraform] block. *)
Definition requiredVersions (block : Block) : list string :=
  if String.eqb (Type_ block) "terraform" then
    acceptedString (PartialContent (BlockBody block) terraformBlockSchema).1.1
      "required_version"
  else [].

(** The default of a [variable] block as the model stores it. *)
Definition defaultOf (attrs : gmap string Attribute) : option goValue :=
  match attrs !! "default" with
  | Some attr =>
      let val := (ExprValue (Expr attr)).1 in
      if IsWhollyKnown val then
        match ctyjson_Marshal val with
        | inl valJSON =>
            match json_Unmarshal valJSON with
            | inl def => def
            | inr _ => None
            end
        | inr _ => None
        end
      else None
  | None => None
  end.

(** The entry a [variable] block with label [name] leaves in
    [Variables]. *)
Definition variableOf (block : Block) (name : string) : Variable_ :=
  let attrs := (PartialContent (BlockBody block) variableSchema).1.1 in
  {| VarName := name;
     TypeHint := match attrs !! "type" with
                 | Some attr => decodeTypeHint attr
                 | None => ""
                 end;
     VarDescription := match attrs !! "description" with
                       | Some attr => (DecodeExpression (Expr attr)).1
                       | None => ""
                       end;
     Default := defaultOf attrs;
     VarPos := sourcePosHCL (DefRange block) |}.

(** The diagnostics a [variable] block appends. *)
Definition variableDiags (block : Block) : hclDiagnostics :=
  let '(attrs, _, contentDiags) :=
    PartialContent (BlockBody block) variableSchema in
  contentDiags
  ++ match attrs !! "type" with
     | Some attr =>
         if String.eqb (decodeTypeHint attr) "" then [invalidVariableTypeHint attr]
         else []
     | None => []
     end
  ++ stringDiags attrs "description"
  ++ match attrs !! "default" with
     | Some attr => (ExprValue (Expr attr)).2
     | None => []
     end.

(** The entry an [output] block with label [name] leaves in [Outputs]. *)
Definition outputOf (block : Block) (name : string) : Output :=
  let attrs := (PartialContent (BlockBody block) outputSchema).1.1 in
  {| OutName := name;
     OutDescription := match attrs !! "description" with
                       | Some attr => (DecodeExpression (Expr attr)).1
                       | None => ""
                       end;
     OutPos := sourcePosHCL (DefRange block) |}.

(** The diagnostics an [output] block appends. *)
Definition outputDiags (block : Block) : hclDiagnostics :=
  let '(attrs, _, contentDiags) :=
    PartialContent (BlockBody block) outputSchema in
  contentDiags ++ stringDiags attrs "description".

(** What a block declares under a name: a variable, an output. *)
Definition declaredVariable (block : Block) : option (string * Variable_) :=
  if String.eqb (Type_ block) "variable" then
    match Labels block with
    | name :: _ => Some (name, variableOf block name)
    | [] => None
    end
  else None.

Definition declaredOutput (block : Block) : option (string * Output) :=
  if String.eqb (Type_ block) "output" then
    match Labels block with
    | name :: _ => Some (name, outputOf block name)
    | [] => None
    end
  else None.

(** The value the last block of [blocks] that declares [name] gives it. *)
Fixpoint lastDeclared {V : Type} (decl : Block -> option (string * V))
    (name : string) (blocks : list Block) : option V :=
  match blocks with
  | [] => None
  | block :: rest =>
      match lastDeclared decl name rest with
      | Some v => Some v
      | None =>
          match decl block with
          | Some (n, v) => if String.eqb n name then Some v else None
          | None => None
          end
      end
  end.

(** The resource a [resource] or [data] block builds before its provider
    is known, and its key. *)
Definition declaredResource (mode : ResourceMode) (block : Block)
    (typeName name : string) : Resource :=
  {| Mode := mode; ResType := typeName; ResName := name;
     Provider := {| ProvName := ""; Alias := "" |};
     ResPos := sourcePosHCL (DefRange block) |}.

(** The provider a block binds its resource to: the root and the alias of
    the [provider] reference when it has one, the zero value when the
    reference cannot be read, the prefix of the type when there is no
    [provider] attribute. *)
Definition providerOf (typeName : string) (attrs : gmap string Attribute)
  : ProviderRef :=
  match attrs !! "provider" with
  | Some attr =>
      match providerTraversal attr with
      | TraverseRoot providerName :: rest =>
          {| ProvName := providerName;
             Alias := traversalAlias (TraverseRoot providerName :: rest) |}
      | _ => {| ProvName := ""; Alias := "" |}
      end
  | None =>
      {| ProvName := resourceTypeDefaultProviderName typeName; Alias := "" |}
  end.

(** The diagnostic of a [provider] attribute that cannot be read. *)
Definition providerRefDiags (attrs : gmap string Attribute) : hclDiagnostics :=
  match attrs !! "provider" with
  | Some attr =>
      match providerTraversal attr with
      | [] => [invalidProviderReference attr]
      | _ :: _ => []
      end
  | None => []
  end.

(** ** The diagnostics of the library that a run forwards

    Every call into the library returns diagnostics. These functions list,
    in the order of the calls, the ones [loadModule] appends to [diags];
    the diagnostics of the trial decodings of a [type] and of a [provider]
    attribute are not among them. *)

(** The diagnostics of decoding one attribute of [required_providers]. *)
Definition requiredProviderDiags (entry : string * Attribute) : hclDiagnostics :=
  (DecodeExpression (Expr entry.2)).2.

Definition requiredProvidersDiags (block : Block) : hclDiagnostics :=
  let '(attrs, attrDiags) := JustAttributes (BlockBody block) in
  attrDiags ++ flat_map requiredProviderDiags (map_to_list attrs).

Definition terraformDiags (block : Block) : hclDiagnostics :=
  let '(attrs, blocks, contentDiags) :=
    PartialContent (BlockBody block) terraformBlockSchema in
  contentDiags ++ stringDiags attrs "required_version"
  ++ flat_map requiredProvidersDiags blocks.

Definition providerDiags (block : Block) : hclDiagnostics :=
  let '(attrs, _, contentDiags) :=
    PartialContent (BlockBody block) providerConfigSchema in
  contentDiags ++ stringDiags attrs "version".

Definition variableForwarded (block : Block) : hclDiagnostics :=
  let '(attrs, _, contentDiags) :=
    PartialContent (BlockBody block) variableSchema in
  contentDiags ++ stringDiags attrs "description"
  ++ match attrs !! "default" with
     | Some attr => (ExprValue (Expr attr)).2
     | None => []
     end.

Definition forwarded (block : Block) : hclDiagnostics :=
  let type := Type_ block in
  if String.eqb type "terraform" then terraformDiags block
  else if String.eqb type "variable" then variableForwarded block
  else if String.eqb type "output" then outputDiags block
  else if String.eqb type "provider" then providerDiags block
  else if String.eqb type "resource" || String.eqb type "data" then
    (PartialContent (BlockBody block) resourceSchema).2
  else [].

Definition fileForwarded (filename : string) : hclDiagnostics :=
  let '(file, fileDiags) := parseFile filename in
  fileDiags
  ++ match file with
     | Some body =>
         let '(_, blocks, contentDiags) := PartialContent body rootSchema in
         contentDiags ++ flat_map forwarded blocks
     | None => []
     end.


(** The [required_version] attributes a run meets, one per [terraform]
    block that has one, whether or not they decode. *)
Definition requiredVersionAttributes (dir : string) : list Attribute :=
  flat_map
    (fun block =>
       if String.eqb (Type_ block) "terraform" then
         match (PartialContent (BlockBody block) terraformBlockSchema).1.1
                 !! "required_version" with
         | Some attr => [attr]
         | None => []
         end
       else [])
    (allBlocks dir).


(** ** Where a block panics *)

(** The panic of the [default] attribute of a [variable] block: the value
    is wholly known and its JSON form cannot be made or read back. *)
Definition defaultPanic (attrs : gmap string Attribute) : option Panic :=
  match attrs !! "default" with
  | Some attr =>
      let val := (ExprValue (Expr attr)).1 in
      if IsWhollyKnown val then
        match ctyjson_Marshal val with
        | inr err => Some (FailedToSerializeDefault err)
        | inl valJSON =>
            match json_Unmarshal valJSON with
            | inr err => Some (FailedToReparseDefault err)
            | inl _ => None
            end
        end
      else None
  | None => None
  end.

(** The panic of the [provider] attribute of a resource: the reference
    that was read is not empty and does not start with a root step. *)
Definition providerPanic (attrs : gmap string Attribute) : option Panic :=
  match attrs !! "provider" with
  | Some attr =>
      match providerTraversal attr with
      | [] => None
      | TraverseRoot _ :: _ => None
      | _ :: _ => Some RootNameOfRelativeTraversal
      end
  | None => None
  end.

(** ** The effect of one block, as a relation between states

    One rule per case of the switch: what the block leaves in the module
    and which diagnostics it appends. [processBlock] is shown to follow
    these rules whenever it runs to its end. *)

Inductive resourceEffect (mode : ResourceMode) (block : Block)
    (s s' : State) : Prop :=
  | effect_duplicate (typeName name : string) (rest : list string) :
      Labels block = typeName :: name :: rest ->
      is_Some (resourcesMap mode (smod s)
                 !! MapKey (declaredResource mode block typeName name)) ->
      smod s' = smod s ->
      sdiags s' = sdiags s
        ++ (PartialContent (BlockBody block) resourceSchema).2
        ++ [duplicateResourceBlock
              (MapKey (declaredResource mode block typeName name)) block] ->
      resourceEffect mode block s s'
  | effect_fresh (typeName name : string) (rest : list string) :
      Labels block = typeName :: name :: rest ->
      resourcesMap mode (smod s)
        !! MapKey (declaredResource mode block typeName name) = None ->
      smod s' = set_resourcesMap mode
                  (<[MapKey (declaredResource mode block typeName name)
                     := set_Provider
                          (providerOf typeName
                             (PartialContent (BlockBody block) resourceSchema).1.1)
                          (declaredResource mode block typeName name)]>
                     (resourcesMap mode (smod s))) (smod s) ->
      sdiags s' = sdiags s
        ++ (PartialContent (BlockBody block) resourceSchema).2
        ++ providerRefDiags
             (PartialContent (BlockBody block) resourceSchema).1.1 ->
      resourceEffect mode block s s'.

Inductive blockEffect (block : Block) (s s' : State) : Prop :=
  | effect_terraform (rp : gmap string (list string)) :
      Type_ block = "terraform" ->
      smod s' = set_RequiredProviders rp
                  (set_RequiredCore
                     (RequiredCore (smod s) ++ requiredVersions block)
                     (smod s)) ->
      sdiags s' = sdiags s ++ terraformDiags block ->
      blockEffect block s s'
  | effect_variable (name : string) (rest : list string) :
      Type_ block = "variable" ->
      Labels block = name :: rest ->
      smod s' = set_Variables
                  (<[name := variableOf block name]> (Variables (smod s)))
                  (smod s) ->
      sdiags s' = sdiags s ++ variableDiags block ->
      blockEffect block s s'
  | effect_output (name : string) (rest : list string) :
      Type_ block = "output" ->
      Labels block = name :: rest ->
      smod s' = set_Outputs
                  (<[name := outputOf block name]> (Outputs (smod s)))
                  (smod s) ->
      sdiags s' = sdiags s ++ outputDiags block ->
      blockEffect block s s'
  | effect_provider (rp : gmap string (list string)) :
      Type_ block = "provider" ->
      smod s' = set_RequiredProviders rp (smod s) ->
      sdiags s' = sdiags s ++ providerDiags block ->
      blockEffect block s s'
  | effect_resource :
      Type_ block = "resource" ->
      resourceEffect ManagedResourceMode block s s' ->
      blockEffect block s s'
  | effect_data :
      Type_ block = "data" ->
      resourceEffect DataResourceMode block s s' ->
      blockEffect block s s'
  | effect_module :
      Type_ block = "module" ->
      s' = s ->
      blockEffect block s s'.


(** ** Blocks that a run gets through *)

(** The seven cases of the switch on [block.Type]. *)
Definition handledType (type : string) : bool :=
  String.eqb type "terraform" || String.eqb type "variable"
  || String.eqb type "output" || String.eqb type "provider"
  || String.eqb type "resource" || String.eqb type "data"
  || String.eqb type "module".

(** How many labels the case of a block reads with [block.Labels[i]]. *)
Definition labelsRead (block : Block) : nat :=
  let type := Type_ block in
  if String.eqb type "variable" || String.eqb type "output"
     || String.eqb type "provider" then 1
  else if String.eqb type "resource" || String.eqb type "data" then 2
  else 0.

(** What can make the case of a block panic: a label that is read and is
    not there, a wholly known default without a JSON form that reads back,
    a provider reference that does not start with a root step, a type
    that is none of the seven. *)
Definition panicCause (block : Block) (p : Panic) : Prop :=
  (p = IndexOutOfRange /\ length (Labels block) < labelsRead block)
  \/ (Type_ block = "variable"
      /\ defaultPanic (PartialContent (BlockBody block) variableSchema).1.1
         = Some p)
  \/ ((Type_ block = "resource" \/ Type_ block = "data")
      /\ providerPanic (PartialContent (BlockBody block) resourceSchema).1.1
         = Some p)
  \/ (p = UnhandledBlockType (Type_ block)
      /\ handledType (Type_ block) = false).

(** A block without any of these causes. *)
Definition runsToEnd (block : Block) : bool :=
  let type := Type_ block in
  handledType type
  && (labelsRead block <=? length (Labels block))%nat
  && (if String.eqb type "variable" then
        match defaultPanic
                (PartialContent (BlockBody block) variableSchema).1.1 with
        | Some _ => false
        | None => true
        end
      else true)
  && (if String.eqb type "resource" || String.eqb type "data" then
        match providerPanic
                (PartialContent (BlockBody block) resourceSchema).1.1 with
        | Some _ => false
        | None => true
        end
      else true).

(** ** What a run reads for [RequiredProviders] *)








(** ** What a run reads for the resource maps *)

Definition blockTypeOf (mode : ResourceMode) : string :=
  match mode with
  | ManagedResourceMode => "resource"
  | DataResourceMode => "data"
  end.

(** The key and the entry a [resource] or [data] block stores when its
    key is new. *)
Definition resourceEntry (mode : ResourceMode) (block : Block)
  : option (string * Resource) :=
  if String.eqb (Type_ block) (blockTypeOf mode) then
    match Labels block with
    | typeName :: name :: _ =>
        Some (MapKey (declaredResource mode block typeName name),
              set_Provider
                (providerOf typeName
                   (PartialContent (BlockBody block) resourceSchema).1.1)
                (declaredResource mode block typeName name))
    | _ => None
    end
  else None.

(** The value the first block of [blocks] that declares [key] gives it. *)
Fixpoint firstDeclared {V : Type} (decl : Block -> option (string * V))
    (key : string) (blocks : list Block) : option V :=
  match blocks with
  | [] => None
  | block :: rest =>
      match decl block with
      | Some (k, v) =>
          if String.eqb k key then Some v else firstDeclared decl key rest
      | None => firstDeclared decl key rest
      end
  end.

End Model.

Arguments Ok {Hcl A}.
Arguments Panicked {Hcl A}.

(** ** A stand-in for the library and for the rest of the package

    The theorems below hold for every [HclLibrary] and every
    [Collaborators]. To run the model on concrete modules, this instance
    gives each expression by the results the library returns for it. *)

Module Stub.

Inductive StubValue : Type :=
  | Known (json : string)
  | Unknown
  | Unencodable
  | Unparseable.

Record StubExpression : Type := mkStubExpression {
  keyword : string;
  decoded : string * list (hclDiagnostic nat);
  traversal : list (Traverser unit) * list (hclDiagnostic nat);
  value : StubValue * list (hclDiagnostic nat);
  range : nat
}.

Definition errorDiag (summary : string) : hclDiagnostic nat :=
  {| Severity := DiagError; Summary := summary; Detail := "";
     Subject := None; Context_ := None |}.

Definition warningDiag (summary : string) : hclDiagnostic nat :=
  {| Severity := DiagWarning; Summary := summary; Detail := "";
     Subject := None; Context_ := None |}.

(** Splits a dotted name at its dots. *)
Fixpoint splitDots (acc s : string) : list string :=
  match s with
  | EmptyString => [acc]
  | String c rest =>
      if Ascii.eqb c "."%char then acc :: splitDots "" rest
      else splitDots (acc +:+ String c "") rest
  end.

Fixpoint hasQuestionMark (s : string) : bool :=
  match s with
  | EmptyString => false
  | String c rest => Ascii.eqb c "?"%char || hasQuestionMark rest
  end.

(** A dotted name is a root step and attribute steps; a name with a
    question mark, or an empty one, is refused. *)
Definition parseTraversal (s : string)
  : list (Traverser unit) * list (hclDiagnostic nat) :=
  if hasQuestionMark s || String.eqb s "" then ([], [errorDiag "Invalid traversal"])
  else
    match splitDots "" s with
    | [] => ([], [errorDiag "Invalid traversal"])
    | root :: attrs => (TraverseRoot root :: map TraverseAttr attrs, [])
    end.

#[export] Instance library : HclLibrary := {|
  Range := nat;
  Expression := StubExpression;
  ctyValue := StubValue;
  ctyKey := unit;
  goError := string;
  jsonBytes := string;
  goValue := string;
  ExprAsKeyword := keyword;
  DecodeExpression := decoded;
  AbsTraversalForExpr := traversal;
  ParseTraversalAbs := parseTraversal;
  ExprValue := value;
  ExprRange := range;
  IsWhollyKnown := fun v => match v with Unknown => false | _ => true end;
  ctyjson_Marshal := fun v =>
    match v with
    | Known json => inl json
    | Unparseable => inl "?"
    | _ => inr "no JSON mapping"
    end;
  json_Unmarshal := fun b =>
    if String.eqb b "?" then inr "invalid JSON"
    else if String.eqb b "null" then inl None
    else inl (Some b)
|}.

(** A module directory: the parse result of every primary file, the
    override paths and the diagnostics of the directory scan. *)
Record Directory : Type := mkDirectory {
  primaryFiles : list (string * (option Body * list (hclDiagnostic nat)));
  overridePaths : list string;
  scanDiags : list (hclDiagnostic nat)
}.

Fixpoint parse (files : list (string * (option Body * list (hclDiagnostic nat))))
    (filename : string) : option Body * list (hclDiagnostic nat) :=
  match files with
  | [] => (None, [errorDiag "Failed to read file"])
  | (name, result) :: rest =>
      if String.eqb name filename then result else parse rest filename
  end.

Definition modeName (mode : ResourceMode) : string :=
  match mode with
  | ManagedResourceMode => "managed"
  | DataResourceMode => "data"
  end.

(** The key follows the spec: mode, colon, type, dot, name. *)
Definition mapKey (r : Resource) : string :=
  modeName (Mode r) +:+ ":" +:+ ResType r +:+ "." +:+ ResName r.

Definition collaborators (d : Directory) : Collaborators := {|
  dirFiles := fun _ => (map fst (primaryFiles d), overridePaths d, scanDiags d);
  ParseJSONFile := parse (primaryFiles d);
  ParseHCLFile := parse (primaryFiles d);
  sourcePosHCL := fun rng => {| Filename := "main.tf"; Line := Z.of_nat rng |};
  MapKey := mapKey
|}.

(** Builders for bodies and blocks. *)
Definition attr (name : string) (e : StubExpression) : Attribute :=
  {| AttrName := name; Expr := e |}.

Definition attribute (name : string) (e : StubExpression) : string * Attribute :=
  (name, attr name e).

Definition body (attrs : list (string * Attribute)) (blocks : list Block)
    (diags : list (hclDiagnostic nat)) : Body :=
  mkBody (fun _ => (list_to_map attrs, blocks, diags)) (list_to_map attrs, diags).

Definition literal (s : string) : StubExpression :=
  {| keyword := ""; decoded := (s, []);
     traversal := ([], [errorDiag "A static variable reference is required."]);
     value := (Known s, []); range := 0 |}.

Definition bare (name : string) : StubExpression :=
  {| keyword := (if hasQuestionMark name then "" else
                 match splitDots "" name with [k] => k | _ => "" end);
     decoded := ("", [errorDiag "Variables not allowed"]);
     traversal := parseTraversal name;
     value := (Unknown, [errorDiag "Variables not allowed"]); range := 0 |}.

End Stub.

(** ** Concrete modules *)

Module Examples.

Import Stub.

Definition block (type : string) (labels : list string)
    (attrs : list (string * Attribute)) : Block :=
  mkBlock type labels 7 (body attrs [] []).

Definition file (blocks : list Block)
  : option Body * list (hclDiagnostic nat) :=
  (Some (body [] blocks []), []).

Definition directory (blocks : list Block) : Directory :=
  {| primaryFiles := [("main.tf", file blocks)];
     overridePaths := [];
     scanDiags := [] |}.

(** An expression that is no keyword, no reference and no string. *)
Definition notAString : StubExpression :=
  {| keyword := ""; decoded := ("", [errorDiag "Unsuitable value type"]);
     traversal := ([], [errorDiag "A static variable reference is required."]);
     value := (Known "[1]", []); range := 3 |}.

Definition emptyState : @State library :=
  {| smod := newModule "."; sdiags := [] |}.

(** resource "null_resource" "a" {} *)
Definition nullResourceA : Block := block "resource" ["null_resource"; "a"] [].


(** variable "x" { description = "first" }
    variable "x" { description = "second" } *)
Definition twiceDeclared : Directory :=
  directory [ block "variable" ["x"] [attribute "description" (literal "first")];
              block "variable" ["x"] [attribute "description" (literal "second")] ].

(** resource "aws_instance" "web" { provider = aws.east } *)
Definition withNakedProvider : Block :=
  block "resource" ["aws_instance"; "web"] [attribute "provider" (bare "aws.east")].

(** resource "aws_instance" "web" {} *)
Definition withoutProvider : Block := block "resource" ["aws_instance"; "web"] [].




(** terraform { required_version = ">= 0.12" } *)
Definition withRequiredVersion : Directory :=
  directory [ block "terraform" [] [attribute "required_version" (literal ">= 0.12")] ].

(** terraform { required_version = [1] } *)
Definition withBadRequiredVersion : Directory :=
  directory [ block "terraform" [] [attribute "required_version" notAString] ].

(** provider "aws" { version = [1] } *)
Definition withBadVersion : Block :=
  block "provider" ["aws"] [attribute "version" notAString].

(** A directory without any configuration file. *)
Definition emptyDirectory : Directory :=
  {| primaryFiles := []; overridePaths := []; scanDiags := [] |}.

(** A directory with an override file only. *)
Definition overridesOnly : Directory :=
  {| primaryFiles := []; overridePaths := ["main_override.tf"];
     scanDiags := [warningDiag "Skipped a hidden file"] |}.



(** module "m" {} *)
Definition moduleCall : Block := block "module" ["m"] [].

(** variable "x" { default = 1 } *)
Definition withKnownDefault : Block :=
  block "variable" ["x"] [attribute "default" (literal "1")].

(** provider "aws" { version = "~> 2.0" } *)
Definition withVersion : Block :=
  block "provider" ["aws"] [attribute "version" (literal "~> 2.0")].



(** resource "null_resource" "a" {}
    resource "null_resource" "a" { provider = aws.east } *)
Definition resourceTwice : Directory :=
  directory [ nullResourceA;
              block "resource" ["null_resource"; "a"]
                [attribute "provider" (bare "aws.east")] ].

End Examples.

(** * Properties *)

Section Properties.

Context {Hcl : HclLibrary} {Env : Collaborators}.

Abbreviation hclDiagnostics := (list (hclDiagnostic Range)).
Abbreviation Traversal := (list (Traverser ctyKey)).

(** ** Running the monad *)

Lemma bind_Ok {A B : Type} (c : M A) (k : A -> M B) (s : State) b s' :
  (c ≫= k) s = Ok (b, s') <->
  exists a s1, c s = Ok (a, s1) /\ k a s1 = Ok (b, s').
Proof.
  unfold mbind, M_bind. split.
  - destruct (c s) as [[a s1]|p]; [|discriminate]. intros H. by exists a, s1.
  - intros (a & s1 & -> & H). exact H.
Qed.

Lemma bind_Ok_eq {A B : Type} (c : M A) (k : A -> M B) (s : State) a s1 :
  c s = Ok (a, s1) -> (c ≫= k) s = k a s1.
Proof. unfold mbind, M_bind. by intros ->. Qed.

Lemma index_cons (l : string) (rest : list string) :
  index (l :: rest) 0 = mret l.
Proof. reflexivity. Qed.


(** A loop whose every step rewrites one component of the state by a
    function of the element folds that function over the list. *)
Lemma forEach_fold {A X : Type} (proj : State -> X) (step : A -> X -> X)
    (body : A -> M unit) (xs : list A) :
  (forall x s s', body x s = Ok (tt, s') -> proj s' = step x (proj s)) ->
  forall s s', forEach xs body s = Ok (tt, s') ->
    proj s' = fold_left (fun acc x => step x acc) xs (proj s).
Proof.
  intros Hbody. induction xs as [|x xs IH]; intros s s' Hrun; simpl in Hrun.
  - unfold mret, M_ret in Hrun. by simplify_eq.
  - apply bind_Ok in Hrun as ([] & s1 & H1 & H2).
    simpl. rewrite <- (Hbody _ _ _ H1). by apply IH.
Qed.

(** Unfolds the monad so that a handler runs on a given state. *)
Ltac run :=
  unfold storeVariable, writeVariable, storeOutput, writeOutput, storeResource,
    writeResource, appendRequiredProvider;
  unfold mbind, M_bind, mret, M_ret, appendDiags, modifyMod, getMod, panic;
  cbn [smod sdiags].

(** ** The [provider] block *)

(** C10. After a [provider] block labelled [name], [RequiredProviders] has
    the key [name]. When the [version] attribute is absent, or present but
    decoded with errors, nothing is appended: an entry that exists is left
    as it is and a missing one becomes the empty sequence, so the module
    is the same in both cases, and the diagnostics of the decoding are
    appended all the same. *)
Theorem provider_block_records_dependency
    (block : Block) (s : State) (name : string) (rest : list string)
    (attrs : gmap string Attribute) (blocks : list Block)
    (contentDiags : hclDiagnostics)
    (HL : Labels block = name :: rest)
    (HC : PartialContent (BlockBody block) providerConfigSchema
          = (attrs, blocks, contentDiags)) :
  exists s',
    providerBlock block s = Ok (tt, s') /\
    is_Some (RequiredProviders (smod s') !! name) /\
    forall valDiags,
      (attrs !! "version" = None /\ valDiags = []) \/
      (exists attr version,
          attrs !! "version" = Some attr /\
          DecodeExpression (Expr attr) = (version, valDiags) /\
          HasErrors valDiags = true) ->
      smod s' =
        match RequiredProviders (smod s) !! name with
        | Some _ => smod s
        | None =>
            set_RequiredProviders (<[name := []]> (RequiredProviders (smod s)))
              (smod s)
        end /\
      sdiags s' = sdiags s ++ contentDiags ++ valDiags.
Proof.
  unfold providerBlock, providerVersion, providerEnsureEntry.
  rewrite HC, HL, index_cons.
  destruct (attrs !! "version") as [attr|] eqn:Hv.
  - destruct (DecodeExpression (Expr attr)) as [version valDiags] eqn:Hd.
    destruct (HasErrors valDiags) eqn:He; run.
    + destruct (RequiredProviders (smod s) !! name) eqn:Hn;
        (eexists; split; [reflexivity|]; simpl; split;
         [ rewrite ?Hn, ?lookup_insert_eq; eauto |]);
        intros vd [[? _]|(a & v & Ha & Hda & _)]; try discriminate;
        simplify_eq; rewrite Hd in Hda; simplify_eq;
        (split; [reflexivity | by rewrite <- app_assoc]).
    + simpl. rewrite lookup_insert_eq.
      eexists; split; [reflexivity|]; simpl. split.
      * rewrite lookup_insert_eq; eauto.
      * intros vd [[? _]|(a & v & Ha & Hda & Hea)]; [discriminate|].
        simplify_eq. congruence.
  - run.
    destruct (RequiredProviders (smod s) !! name) eqn:Hn;
      (eexists; split; [reflexivity|]; simpl; split;
       [ rewrite ?Hn, ?lookup_insert_eq; eauto |]);
      intros vd [[_ ->]|(a & v & Ha & _)]; try discriminate;
      (split; [reflexivity | by rewrite !app_nil_r]).
Qed.

(** ** The [terraform] block *)

Lemma set_RequiredCore_same (m : Module_) : set_RequiredCore (RequiredCore m) m = m.
Proof. by destruct m. Qed.

Lemma set_RequiredProviders_same (m : Module_) :
  set_RequiredProviders (RequiredProviders m) m = m.
Proof. by destruct m. Qed.

Lemma terraformRequiredVersion_run (attrs : gmap string Attribute) (s : State) :
  terraformRequiredVersion attrs s =
  Ok (tt, {| smod := set_RequiredCore
                       (RequiredCore (smod s)
                        ++ acceptedString attrs "required_version") (smod s);
             sdiags := sdiags s ++ stringDiags attrs "required_version" |}).
Proof.
  unfold terraformRequiredVersion, acceptedString, stringDiags.
  destruct (attrs !! "required_version") as [attr|].
  - destruct (DecodeExpression (Expr attr)) as [version valDiags].
    destruct (HasErrors valDiags); run; cbn [fst snd];
      by rewrite ?app_nil_r, ?set_RequiredCore_same.
  - run. rewrite !app_nil_r, set_RequiredCore_same. by destruct s.
Qed.

Lemma requiredProvider_run (entry : string * Attribute) (s : State) :
  exists rp,
    requiredProvider entry s =
    Ok (tt, {| smod := set_RequiredProviders rp (smod s);
               sdiags := sdiags s ++ requiredProviderDiags entry |}).
Proof.
  unfold requiredProvider, requiredProviderDiags. destruct entry as [name attr].
  simpl. destruct (DecodeExpression (Expr attr)) as [version valDiags].
  destruct (HasErrors valDiags); run; simpl.
  - exists (RequiredProviders (smod s)). by rewrite set_RequiredProviders_same.
  - eauto.
Qed.

(** A loop over steps that never panic, touch only [RequiredProviders] and
    append known diagnostics does the same as a whole. *)
Lemma forEach_requiredProviders {A : Type} (body : A -> M unit)
    (ds : A -> hclDiagnostics) (xs : list A) :
  (forall x s, exists rp,
      body x s = Ok (tt, {| smod := set_RequiredProviders rp (smod s);
                            sdiags := sdiags s ++ ds x |})) ->
  forall s, exists rp,
    forEach xs body s =
    Ok (tt, {| smod := set_RequiredProviders rp (smod s);
               sdiags := sdiags s ++ flat_map ds xs |}).
Proof.
  intros Hbody. induction xs as [|x xs IH]; intros s; simpl.
  - exists (RequiredProviders (smod s)). unfold mret, M_ret.
    rewrite set_RequiredProviders_same, app_nil_r. by destruct s.
  - destruct (Hbody x s) as [rp1 H1]. rewrite (bind_Ok_eq _ _ _ _ _ H1).
    destruct (IH {| smod := set_RequiredProviders rp1 (smod s);
                    sdiags := sdiags s ++ ds x |}) as [rp2 H2].
    rewrite H2. exists rp2. simpl. by rewrite <- app_assoc.
Qed.

Lemma requiredProvidersBlock_run (block : Block) (s : State) :
  exists rp,
    requiredProvidersBlock block s =
    Ok (tt, {| smod := set_RequiredProviders rp (smod s);
               sdiags := sdiags s ++ requiredProvidersDiags block |}).
Proof.
  unfold requiredProvidersBlock, requiredProvidersDiags.
  destruct (JustAttributes (BlockBody block)) as [attrs attrDiags].
  destruct (forEach_requiredProviders requiredProvider requiredProviderDiags
              (map_to_list attrs) requiredProvider_run
              {| smod := smod s; sdiags := sdiags s ++ attrDiags |})
    as [rp H].
  exists rp. run. rewrite H. simpl. by rewrite <- app_assoc.
Qed.

(** A [terraform] block never panics: it appends its accepted
    [required_version] to [RequiredCore], changes [RequiredProviders], and
    appends every diagnostic the library returned for it. *)
Lemma terraformBlock_run (block : Block) (s : State) :
  exists rp,
    terraformBlock block s =
    Ok (tt, {| smod := set_RequiredProviders rp
                 (set_RequiredCore
                    (RequiredCore (smod s)
                     ++ acceptedString
                          (PartialContent (BlockBody block)
                             terraformBlockSchema).1.1
                          "required_version")
                    (smod s));
               sdiags := sdiags s ++ terraformDiags block |}).
Proof.
  unfold terraformBlock, terraformDiags.
  destruct (PartialContent (BlockBody block) terraformBlockSchema)
    as [[attrs blocks] contentDiags]. simpl.
  set (s1 := {| smod := smod s; sdiags := sdiags s ++ contentDiags |}).
  pose proof (terraformRequiredVersion_run attrs s1) as H1.
  set (s2 := {| smod := set_RequiredCore
                          (RequiredCore (smod s1)
                           ++ acceptedString attrs "required_version") (smod s1);
                sdiags := sdiags s1 ++ stringDiags attrs "required_version" |})
    in H1.
  destruct (forEach_requiredProviders requiredProvidersBlock
              requiredProvidersDiags blocks requiredProvidersBlock_run s2)
    as [rp H2].
  exists rp. run. fold s1. rewrite H1, H2. subst s1 s2. simpl.
  by rewrite <- !app_assoc.
Qed.

(** ** The [variable] and [output] blocks *)

(** The three attribute steps of a [variable] block, on any state. *)
Lemma variableType_run (name : string) (attrs : gmap string Attribute)
    (s : State) :
  variableType name attrs s =
  Ok (tt, match attrs !! "type" with
          | Some attr =>
              {| smod := set_Variables
                           (alter (set_TypeHint (decodeTypeHint attr)) name
                              (Variables (smod s))) (smod s);
                 sdiags := sdiags s
                   ++ (if String.eqb (decodeTypeHint attr) ""
                       then [invalidVariableTypeHint attr] else []) |}
          | None => s
          end).
Proof.
  unfold variableType. destruct (attrs !! "type") as [attr|]; [|done].
  destruct (String.eqb (decodeTypeHint attr) ""); run; simpl;
    by rewrite ?app_nil_r.
Qed.

Lemma variableDescription_run (name : string) (attrs : gmap string Attribute)
    (s : State) :
  variableDescription name attrs s =
  Ok (tt, match attrs !! "description" with
          | Some attr =>
              {| smod := set_Variables
                           (alter (set_VarDescription
                                     (DecodeExpression (Expr attr)).1) name
                              (Variables (smod s))) (smod s);
                 sdiags := sdiags s ++ (DecodeExpression (Expr attr)).2 |}
          | None => s
          end).
Proof.
  unfold variableDescription. destruct (attrs !! "description") as [attr|];
    [|done].
  by destruct (DecodeExpression (Expr attr)) as [description valDiags].
Qed.

Lemma variableDefault_run (name : string) (attrs : gmap string Attribute)
    (s : State) :
  variableDefault name attrs s =
  match defaultPanic attrs with
  | Some p => Panicked p
  | None =>
      Ok (tt, match attrs !! "default" with
              | Some attr =>
                  {| smod := if IsWhollyKnown (ExprValue (Expr attr)).1
                             then set_Variables
                                    (alter (set_Default (defaultOf attrs)) name
                                       (Variables (smod s))) (smod s)
                             else smod s;
                     sdiags := sdiags s ++ (ExprValue (Expr attr)).2 |}
              | None => s
              end)
  end.
Proof.
  unfold variableDefault, defaultPanic, defaultOf.
  destruct (attrs !! "default") as [attr|]; [|done].
  destruct (ExprValue (Expr attr)) as [val valDiags]. cbn [fst snd].
  destruct (IsWhollyKnown val); [|done].
  destruct (ctyjson_Marshal val) as [valJSON|err]; [|done].
  by destruct (json_Unmarshal valJSON) as [def|err].
Qed.

(** A [variable] block with a label panics only in its [default]; else it
    stores the entry [variableOf] describes under its label, whatever the
    map held, and appends the diagnostics [variableDiags] describes,
    whatever the state. *)
Lemma variableBlock_run (block : Block) (s : State) (name : string)
    (rest : list string) :
  Labels block = name :: rest ->
  variableBlock block s =
  match defaultPanic (PartialContent (BlockBody block) variableSchema).1.1 with
  | Some p => Panicked p
  | None =>
      Ok (tt, {| smod := set_Variables
                           (<[name := variableOf block name]>
                              (Variables (smod s))) (smod s);
                 sdiags := sdiags s ++ variableDiags block |})
  end.
Proof.
  intros HL. unfold variableBlock, variableOf, variableDiags, stringDiags.
  destruct (PartialContent (BlockBody block) variableSchema)
    as [[attrs blocks] contentDiags].
  rewrite HL, index_cons. cbn [fst snd].
  unfold mbind at 1 2 3 4 5, M_bind, appendDiags, mret, M_ret, storeVariable,
    modifyMod. cbn [smod sdiags].
  rewrite variableType_run, variableDescription_run, variableDefault_run.
  unfold defaultPanic, defaultOf.
  destruct (attrs !! "type") as [ty|];
    [destruct (String.eqb (decodeTypeHint ty) "")|];
    (destruct (attrs !! "description") as [de|];
       [destruct (DecodeExpression (Expr de)) as [description dd]|]);
    (destruct (attrs !! "default") as [df|];
       [destruct (ExprValue (Expr df)) as [val vd];
        cbn [fst snd];
        destruct (IsWhollyKnown val);
          [destruct (ctyjson_Marshal val) as [valJSON|err];
             [destruct (json_Unmarshal valJSON) as [def|err]|]|]|]);
    try reflexivity; simpl;
    rewrite ?alter_insert_eq, ?app_nil_r, <- ?app_assoc; simpl;
    reflexivity.
Qed.

Lemma variableBlock_Ok (block : Block) (s s' : State) (name : string)
    (rest : list string) :
  Labels block = name :: rest ->
  variableBlock block s = Ok (tt, s') ->
  smod s' = set_Variables (<[name := variableOf block name]>
                             (Variables (smod s))) (smod s)
  /\ sdiags s' = sdiags s ++ variableDiags block.
Proof.
  intros HL. rewrite (variableBlock_run _ _ _ _ HL).
  destruct (defaultPanic _); intros H; by simplify_eq.
Qed.

Lemma outputBlock_Ok (block : Block) (s s' : State) (name : string)
    (rest : list string) :
  Labels block = name :: rest ->
  outputBlock block s = Ok (tt, s') ->
  smod s' = set_Outputs (<[name := outputOf block name]> (Outputs (smod s)))
              (smod s)
  /\ sdiags s' = sdiags s ++ outputDiags block.
Proof.
  intros HL. unfold outputBlock, outputOf, outputDiags, outputDescription,
    stringDiags.
  destruct (PartialContent (BlockBody block) outputSchema)
    as [[attrs blocks] contentDiags].
  rewrite HL, index_cons. cbn [fst snd].
  destruct (attrs !! "description") as [de|];
    [destruct (DecodeExpression (Expr de)) as [description dd]|];
    run; simpl; intros H; simplify_eq; simpl;
    rewrite ?alter_insert_eq, ?app_nil_r, <- ?app_assoc; simpl;
    split; reflexivity.
Qed.

(** A handler that reads [Labels[0]] only runs to its end when the block
    has a label. *)
Lemma index_0_Ok (labels : list string) (s : State) a s' :
  index labels 0 s = Ok (a, s') -> exists rest, labels = a :: rest /\ s' = s.
Proof.
  destruct labels as [|l rest]; unfold index; simpl; unfold mret, M_ret, panic;
    intros H; simplify_eq. eauto.
Qed.

Lemma variableBlock_labelled (block : Block) (s s' : State) :
  variableBlock block s = Ok (tt, s') ->
  exists name rest, Labels block = name :: rest.
Proof.
  unfold variableBlock.
  destruct (PartialContent (BlockBody block) variableSchema) as [[attrs ?] ?].
  intros H. apply bind_Ok in H as (? & ? & _ & H).
  apply bind_Ok in H as (name & ? & H & _).
  apply index_0_Ok in H as (rest & ? & _). eauto.
Qed.

Lemma outputBlock_labelled (block : Block) (s s' : State) :
  outputBlock block s = Ok (tt, s') ->
  exists name rest, Labels block = name :: rest.
Proof.
  unfold outputBlock.
  destruct (PartialContent (BlockBody block) outputSchema) as [[attrs ?] ?].
  intros H. apply bind_Ok in H as (? & ? & _ & H).
  apply bind_Ok in H as (name & ? & H & _).
  apply index_0_Ok in H as (rest & ? & _). eauto.
Qed.

(** ** The [provider] block, whatever its [version] *)

Lemma providerBlock_Ok (block : Block) (s s' : State) :
  providerBlock block s = Ok (tt, s') ->
  (exists rp, smod s' = set_RequiredProviders rp (smod s))
  /\ sdiags s' = sdiags s ++ providerDiags block.
Proof.
  unfold providerBlock, providerDiags, providerVersion, providerEnsureEntry,
    stringDiags.
  destruct (PartialContent (BlockBody block) providerConfigSchema)
    as [[attrs blocks] contentDiags].
  intros H. apply bind_Ok in H as ([] & s1 & H1 & H).
  apply bind_Ok in H as (name & s2 & H2 & H).
  apply index_0_Ok in H2 as (rest & HL & ->).
  revert H1 H. run. intros H1. simplify_eq. simpl.
  destruct (attrs !! "version") as [attr|];
    [destruct (DecodeExpression (Expr attr)) as [version valDiags];
     destruct (HasErrors valDiags)|]; simpl;
    repeat match goal with
           | |- context [match ?m !! ?k with _ => _ end] => destruct (m !! k)
           end;
    intros H; simplify_eq; simpl;
    rewrite ?app_nil_r, <- ?app_assoc;
    (split; [|reflexivity]); eauto;
    exists (RequiredProviders (smod s)); by rewrite set_RequiredProviders_same.
Qed.

(** ** The [resource] and [data] blocks *)

Lemma resourcesMap_set (mode : ResourceMode) (x : gmap string Resource)
    (m : Module_) :
  resourcesMap mode (set_resourcesMap mode x m) = x.
Proof. by destruct mode. Qed.

Lemma resourcesMap_set_other (mode mode' : ResourceMode)
    (x : gmap string Resource) (m : Module_) :
  mode <> mode' ->
  resourcesMap mode' (set_resourcesMap mode x m) = resourcesMap mode' m.
Proof. by destruct mode, mode'. Qed.

Lemma set_resourcesMap_twice (mode : ResourceMode) (x y : gmap string Resource)
    (m : Module_) :
  set_resourcesMap mode y (set_resourcesMap mode x m) = set_resourcesMap mode y m.
Proof. by destruct mode. Qed.

(** A block whose key is already in its map: one diagnostic, nothing
    else. *)
Lemma resourceBlock_duplicate (mode : ResourceMode) (block : Block) (s : State)
    (typeName name : string) (rest : list string)
    (attrs : gmap string Attribute) (blocks : list Block)
    (contentDiags : hclDiagnostics) :
  Labels block = typeName :: name :: rest ->
  PartialContent (BlockBody block) resourceSchema = (attrs, blocks, contentDiags) ->
  is_Some (resourcesMap mode (smod s)
             !! MapKey (declaredResource mode block typeName name)) ->
  resourceBlock mode block s =
  Ok (tt, {| smod := smod s;
             sdiags := sdiags s ++ contentDiags
               ++ [duplicateResourceBlock
                     (MapKey (declaredResource mode block typeName name))
                     block] |}).
Proof.
  intros HL HC [r0 Hdup]. unfold resourceBlock. rewrite HC, HL.
  run. simpl. unfold declaredResource in Hdup. rewrite Hdup. simpl.
  by rewrite <- app_assoc.
Qed.

(** A block whose key is new: the resource is stored, then its provider
    is resolved. *)
Lemma resourceBlock_fresh (mode : ResourceMode) (block : Block) (s : State)
    (typeName name : string) (rest : list string)
    (attrs : gmap string Attribute) (blocks : list Block)
    (contentDiags : hclDiagnostics) :
  Labels block = typeName :: name :: rest ->
  PartialContent (BlockBody block) resourceSchema = (attrs, blocks, contentDiags) ->
  resourcesMap mode (smod s)
    !! MapKey (declaredResource mode block typeName name) = None ->
  resourceBlock mode block s =
  resourceProvider mode (MapKey (declaredResource mode block typeName name))
    typeName attrs
    {| smod := set_resourcesMap mode
                 (<[MapKey (declaredResource mode block typeName name)
                    := declaredResource mode block typeName name]>
                    (resourcesMap mode (smod s))) (smod s);
       sdiags := sdiags s ++ contentDiags |}.
Proof.
  intros HL HC Hnew. unfold resourceBlock. rewrite HC, HL.
  run. simpl. unfold declaredResource in Hnew. by rewrite Hnew.
Qed.

(** A block whose key is new panics only on a relative reference; else
    the resource is in the map with the provider [providerOf] describes,
    and the diagnostics are those of the content and of an unreadable
    [provider]. *)
Lemma resourceBlock_fresh_run (mode : ResourceMode) (block : Block)
    (s : State) (typeName name : string) (rest : list string)
    (attrs : gmap string Attribute) (blocks : list Block)
    (contentDiags : hclDiagnostics) :
  Labels block = typeName :: name :: rest ->
  PartialContent (BlockBody block) resourceSchema = (attrs, blocks, contentDiags) ->
  resourcesMap mode (smod s)
    !! MapKey (declaredResource mode block typeName name) = None ->
  resourceBlock mode block s =
  match providerPanic attrs with
  | Some p => Panicked p
  | None =>
      Ok (tt, {| smod := set_resourcesMap mode
                   (<[MapKey (declaredResource mode block typeName name)
                      := set_Provider (providerOf typeName attrs)
                           (declaredResource mode block typeName name)]>
                      (resourcesMap mode (smod s))) (smod s);
                 sdiags := sdiags s ++ contentDiags ++ providerRefDiags attrs |})
  end.
Proof.
  intros HL HC Hnew. rewrite (resourceBlock_fresh _ _ _ _ _ _ _ _ _ HL HC Hnew).
  unfold resourceProvider, providerOf, providerRefDiags, providerPanic, RootName.
  destruct (attrs !! "provider") as [attr|].
  - destruct (providerTraversal attr) as [|[root|a|k|] rest'];
      run; simpl;
      rewrite ?resourcesMap_set, ?set_resourcesMap_twice, ?alter_insert_eq,
        ?app_nil_r, <- ?app_assoc; reflexivity.
  - run. simpl.
    by rewrite resourcesMap_set, set_resourcesMap_twice, alter_insert_eq,
      app_nil_r.
Qed.

Lemma resourceBlock_fresh_Ok (mode : ResourceMode) (block : Block)
    (s s' : State) (typeName name : string) (rest : list string)
    (attrs : gmap string Attribute) (blocks : list Block)
    (contentDiags : hclDiagnostics) :
  Labels block = typeName :: name :: rest ->
  PartialContent (BlockBody block) resourceSchema = (attrs, blocks, contentDiags) ->
  resourcesMap mode (smod s)
    !! MapKey (declaredResource mode block typeName name) = None ->
  resourceBlock mode block s = Ok (tt, s') ->
  smod s' = set_resourcesMap mode
              (<[MapKey (declaredResource mode block typeName name)
                 := set_Provider (providerOf typeName attrs)
                      (declaredResource mode block typeName name)]>
                 (resourcesMap mode (smod s))) (smod s)
  /\ sdiags s' = sdiags s ++ contentDiags ++ providerRefDiags attrs.
Proof.
  intros HL HC Hnew.
  rewrite (resourceBlock_fresh_run _ _ _ _ _ _ _ _ _ HL HC Hnew).
  destruct (providerPanic attrs); intros H; by simplify_eq.
Qed.

Lemma resourceBlock_labelled (mode : ResourceMode) (block : Block)
    (s s' : State) :
  resourceBlock mode block s = Ok (tt, s') ->
  exists typeName name rest, Labels block = typeName :: name :: rest.
Proof.
  unfold resourceBlock.
  destruct (PartialContent (BlockBody block) resourceSchema) as [[attrs ?] ?].
  intros H. apply bind_Ok in H as (? & ? & _ & H).
  apply bind_Ok in H as (typeName & ? & H1 & H).
  apply bind_Ok in H as (name & ? & H2 & _).
  destruct (Labels block) as [|t [|n rest]]; unfold index in *; simpl in *;
    unfold panic, mret, M_ret in *; simplify_eq. eauto.
Qed.

(** ** One block, by its type *)

(** Case analysis on the switch of [processBlock]: in every case the type
    of the block is known, or it is none of the seven. *)
Ltac by_block_type block :=
  destruct (String.eqb (Type_ block) "terraform") eqn:?Ht;
  [apply String.eqb_eq in Ht|
   destruct (String.eqb (Type_ block) "variable") eqn:?Hv;
   [apply String.eqb_eq in Hv|
    destruct (String.eqb (Type_ block) "output") eqn:?Ho;
    [apply String.eqb_eq in Ho|
     destruct (String.eqb (Type_ block) "provider") eqn:?Hp;
     [apply String.eqb_eq in Hp|
      destruct (String.eqb (Type_ block) "resource") eqn:?Hr;
      [apply String.eqb_eq in Hr|
       destruct (String.eqb (Type_ block) "data") eqn:?Hd;
       [apply String.eqb_eq in Hd|
        destruct (String.eqb (Type_ block) "module") eqn:?Hm;
        [apply String.eqb_eq in Hm|]]]]]]].

Lemma resourceBlock_effect (mode : ResourceMode) (block : Block)
    (s s' : State) :
  resourceBlock mode block s = Ok (tt, s') -> resourceEffect mode block s s'.
Proof.
  intros H. destruct (resourceBlock_labelled _ _ _ _ H)
    as (typeName & name & rest & HL).
  destruct (PartialContent (BlockBody block) resourceSchema)
    as [[attrs blocks] contentDiags] eqn:HC.
  destruct (resourcesMap mode (smod s)
              !! MapKey (declaredResource mode block typeName name))
    as [r0|] eqn:Hkey.
  - rewrite (resourceBlock_duplicate _ _ _ _ _ _ _ _ _ HL HC) in H by eauto.
    simplify_eq. eapply effect_duplicate; eauto; by rewrite HC.
  - destruct (resourceBlock_fresh_Ok _ _ _ _ _ _ _ _ _ _ HL HC Hkey H)
      as [Hm Hd].
    eapply effect_fresh; eauto; by rewrite HC.
Qed.

(** Whenever [processBlock] runs to its end, the state has changed as the
    rule for the type of the block says. *)
Lemma processBlock_effect (block : Block) (s s' : State) :
  processBlock block s = Ok (tt, s') -> blockEffect block s s'.
Proof.
  unfold processBlock. by_block_type block; intros H.
  - destruct (terraformBlock_run block s) as [rp Hrun].
    rewrite Hrun in H. simplify_eq.
    eapply effect_terraform; [done| |done]. simpl.
    unfold requiredVersions. by rewrite Ht.
  - destruct (variableBlock_labelled _ _ _ H) as (name & rest & HL).
    destruct (variableBlock_Ok _ _ _ _ _ HL H). by eapply effect_variable.
  - destruct (outputBlock_labelled _ _ _ H) as (name & rest & HL).
    destruct (outputBlock_Ok _ _ _ _ _ HL H). by eapply effect_output.
  - destruct (providerBlock_Ok _ _ _ H) as [[rp ?] ?].
    by eapply effect_provider.
  - apply effect_resource; [done|]. by apply resourceBlock_effect.
  - apply effect_data; [done|]. by apply resourceBlock_effect.
  - unfold mret, M_ret in H. simplify_eq. by apply effect_module.
  - discriminate.
Qed.

(** ** A whole run *)

Lemma fold_left_flat_map {A B X : Type} (f : A -> list B) (step : B -> X -> X)
    (xs : list A) (x0 : X) :
  fold_left (fun acc b => step b acc) (flat_map f xs) x0 =
  fold_left (fun acc a => fold_left (fun acc b => step b acc) (f a) acc) xs x0.
Proof.
  revert x0. induction xs as [|a xs IH]; intros x0; simpl; [done|].
  by rewrite fold_left_app, IH.
Qed.

(** A file appends the diagnostics of its parsing and of its root content,
    then runs its blocks in order. *)
Lemma loadFile_Ok (filename : string) (s s' : State) :
  loadFile filename s = Ok (tt, s') ->
  exists ds,
    forEach (fileBlocks filename) processBlock
      {| smod := smod s; sdiags := sdiags s ++ ds |} = Ok (tt, s')
    /\ fileForwarded filename = ds ++ flat_map forwarded (fileBlocks filename).
Proof.
  unfold loadFile, fileBlocks, fileForwarded.
  destruct (parseFile filename) as [[body|] fileDiags].
  - destruct (PartialContent body rootSchema) as [[attrs blocks] contentDiags].
    run. simpl. intros H. exists (fileDiags ++ contentDiags).
    split; [by rewrite app_assoc | by rewrite <- app_assoc].
  - run. simpl. intros H. simplify_eq. exists fileDiags. by rewrite !app_nil_r.
Qed.

Lemma primaryPathsOf_spec (dir : string) :
  primaryPathsOf dir = (dirFiles dir).1.1.
Proof. unfold primaryPathsOf. by destruct (dirFiles dir) as [[? ?] ?]. Qed.

Lemma initialState_mod (dir : string) : smod (initialState dir) = newModule dir.
Proof. unfold initialState. by destruct (dirFiles dir) as [[? ?] ?]. Qed.

(** A component of the module that every block rewrites by a function of
    the block is, after the run, that function folded over all blocks in
    file-then-block order. *)
Lemma runModule_fold {X : Type} (proj : Module_ -> X) (step : Block -> X -> X) :
  (forall b s s', blockEffect b s s' -> proj (smod s') = step b (proj (smod s))) ->
  forall dir s', runModule dir = Ok (tt, s') ->
    proj (smod s') =
    fold_left (fun acc b => step b acc) (allBlocks dir) (proj (newModule dir)).
Proof.
  intros Hstep dir s' Hrun. unfold runModule in Hrun. unfold allBlocks.
  rewrite fold_left_flat_map, <- initialState_mod.
  apply (forEach_fold (fun s => proj (smod s))
           (fun f acc => fold_left (fun acc b => step b acc) (fileBlocks f) acc)
           loadFile (primaryPathsOf dir)); [|exact Hrun].
  intros f s t Hf. apply loadFile_Ok in Hf as (ds & Hf & _).
  apply (forEach_fold (fun s => proj (smod s)) step processBlock) in Hf;
    [exact Hf|].
  intros b u u' Hb. apply Hstep. by apply processBlock_effect.
Qed.



(** ** Resources: keys and duplicates *)

Lemma resourcesMap_frame_RequiredProviders mode rp m :
  resourcesMap mode (set_RequiredProviders rp m) = resourcesMap mode m.
Proof. by destruct mode. Qed.

Lemma resourcesMap_frame_RequiredCore mode rc m :
  resourcesMap mode (set_RequiredCore rc m) = resourcesMap mode m.
Proof. by destruct mode. Qed.

Lemma resourcesMap_frame_Variables mode v m :
  resourcesMap mode (set_Variables v m) = resourcesMap mode m.
Proof. by destruct mode. Qed.

Lemma resourcesMap_frame_Outputs mode o m :
  resourcesMap mode (set_Outputs o m) = resourcesMap mode m.
Proof. by destruct mode. Qed.



Lemma loadModule_Ok (dir : string) (m : Module_) (ds : list Diagnostic) :
  loadModule dir = Ok (m, ds) ->
  exists s, runModule dir = Ok (tt, s)
            /\ m = smod s /\ ds = diagnosticsHCL (sdiags s).
Proof.
  unfold loadModule. destruct (runModule dir) as [[[] s]|p]; [|discriminate].
  intros H. simplify_eq. eauto.
Qed.


(** ** Resources: the provider *)

Lemma providerTraversal_naked (attr : Attribute) (t : Traversal)
    (travDiags : hclDiagnostics) :
  AbsTraversalForExpr (Expr attr) = (t, travDiags) ->
  HasErrors travDiags = false ->
  providerTraversal attr = t.
Proof. unfold providerTraversal. by intros -> ->. Qed.

Lemma providerTraversal_quoted (attr : Attribute) (t t' : Traversal)
    (travDiags valDiags strDiags : hclDiagnostics) (travStr : string) :
  AbsTraversalForExpr (Expr attr) = (t, travDiags) ->
  HasErrors travDiags = true ->
  DecodeExpression (Expr attr) = (travStr, valDiags) ->
  HasErrors valDiags = false ->
  ParseTraversalAbs travStr = (t', strDiags) ->
  providerTraversal attr = if HasErrors strDiags then [] else t'.
Proof. unfold providerTraversal. by intros -> -> -> -> ->. Qed.

Lemma providerTraversal_undecodable (attr : Attribute) (t : Traversal)
    (travDiags valDiags : hclDiagnostics) (travStr : string) :
  AbsTraversalForExpr (Expr attr) = (t, travDiags) ->
  HasErrors travDiags = true ->
  DecodeExpression (Expr attr) = (travStr, valDiags) ->
  HasErrors valDiags = true ->
  providerTraversal attr = [].
Proof. unfold providerTraversal. by intros -> -> -> ->. Qed.

(** What a fresh block with a [provider] attribute leaves, given the
    reference that was read from it. *)
Lemma resourceBlock_with_reference (mode : ResourceMode) (block : Block)
    (s : State) (typeName name : string) (rest : list string)
    (attrs : gmap string Attribute) (blocks : list Block)
    (contentDiags : hclDiagnostics) (attr : Attribute) :
  Labels block = typeName :: name :: rest ->
  PartialContent (BlockBody block) resourceSchema = (attrs, blocks, contentDiags) ->
  resourcesMap mode (smod s)
    !! MapKey (declaredResource mode block typeName name) = None ->
  attrs !! "provider" = Some attr ->
  (forall root steps,
      providerTraversal attr = TraverseRoot root :: steps ->
      resourceBlock mode block s =
      Ok (tt, {| smod := set_resourcesMap mode
                   (<[MapKey (declaredResource mode block typeName name)
                      := set_Provider
                           {| ProvName := root;
                              Alias := traversalAlias (TraverseRoot root :: steps) |}
                           (declaredResource mode block typeName name)]>
                      (resourcesMap mode (smod s))) (smod s);
                 sdiags := sdiags s ++ contentDiags |}))
  /\ (providerTraversal attr = [] ->
      resourceBlock mode block s =
      Ok (tt, {| smod := set_resourcesMap mode
                   (<[MapKey (declaredResource mode block typeName name)
                      := declaredResource mode block typeName name]>
                      (resourcesMap mode (smod s))) (smod s);
                 sdiags := sdiags s ++ contentDiags
                           ++ [invalidProviderReference attr] |})).
Proof.
  intros HL HC Hnew Hp.
  rewrite (resourceBlock_fresh_run _ _ _ _ _ _ _ _ _ HL HC Hnew).
  unfold providerPanic, providerOf, providerRefDiags. rewrite Hp.
  split.
  - intros root steps ->. by rewrite app_nil_r.
  - by intros ->.
Qed.

(** C3. For a [resource] or [data] block with a new key and a [provider]
    attribute: if the expression is read as a naked absolute traversal,
    the stored resource has the root name as provider name and, as alias,
    the name of the second step when that is an attribute step, else the
    empty string; if that reading has errors but the expression decodes
    as a string that parses as such a traversal, the result is the same;
    if both ways fail, one invalid-provider-reference error diagnostic is
    appended and the stored resource keeps the zero provider. *)
Theorem provider_reference_decoding
    (mode : ResourceMode) (block : Block) (s : State)
    (typeName name : string) (rest : list string)
    (attrs : gmap string Attribute) (blocks : list Block)
    (contentDiags : hclDiagnostics) (attr : Attribute)
    (HL : Labels block = typeName :: name :: rest)
    (HC : PartialContent (BlockBody block) resourceSchema
          = (attrs, blocks, contentDiags))
    (Hnew : resourcesMap mode (smod s)
              !! MapKey (declaredResource mode block typeName name) = None)
    (Hp : attrs !! "provider" = Some attr) :
  let key := MapKey (declaredResource mode block typeName name) in
  let stored (p : ProviderRef) (ds : hclDiagnostics) : Result (unit * State) :=
    Ok (tt, {| smod := set_resourcesMap mode
                 (<[key := set_Provider p
                             (declaredResource mode block typeName name)]>
                    (resourcesMap mode (smod s))) (smod s);
               sdiags := sdiags s ++ contentDiags ++ ds |}) in
  (forall root steps travDiags,
      AbsTraversalForExpr (Expr attr) = (TraverseRoot root :: steps, travDiags) ->
      HasErrors travDiags = false ->
      resourceBlock mode block s =
      stored {| ProvName := root;
                Alias := traversalAlias (TraverseRoot root :: steps) |} [])
  /\ (forall t travDiags travStr valDiags root steps strDiags,
      AbsTraversalForExpr (Expr attr) = (t, travDiags) ->
      HasErrors travDiags = true ->
      DecodeExpression (Expr attr) = (travStr, valDiags) ->
      HasErrors valDiags = false ->
      ParseTraversalAbs travStr = (TraverseRoot root :: steps, strDiags) ->
      HasErrors strDiags = false ->
      resourceBlock mode block s =
      stored {| ProvName := root;
                Alias := traversalAlias (TraverseRoot root :: steps) |} [])
  /\ (forall t travDiags travStr valDiags t' strDiags,
      AbsTraversalForExpr (Expr attr) = (t, travDiags) ->
      HasErrors travDiags = true ->
      DecodeExpression (Expr attr) = (travStr, valDiags) ->
      ParseTraversalAbs travStr = (t', strDiags) ->
      HasErrors valDiags = true \/ HasErrors strDiags = true ->
      resourceBlock mode block s =
      stored {| ProvName := ""; Alias := "" |} [invalidProviderReference attr]
      /\ Severity (invalidProviderReference attr) = DiagError
      /\ Summary (invalidProviderReference attr) = "Invalid provider reference")
  /\ (forall root alias steps,
      traversalAlias (TraverseRoot root :: TraverseAttr alias :: steps) = alias)
  /\ (forall root, traversalAlias ([TraverseRoot root] : Traversal) = "")
  /\ (forall root key steps,
      traversalAlias (TraverseRoot root :: TraverseIndex key :: steps) = "").
Proof.
  intros key stored.
  destruct (resourceBlock_with_reference _ _ _ _ _ _ _ _ _ _ HL HC Hnew Hp)
    as [Hroot Hnil].
  refine (conj _ (conj _ (conj _ (conj _ (conj _ _))))); try done.
  - intros root steps travDiags Ht He. unfold stored. rewrite app_nil_r.
    apply Hroot. by eapply providerTraversal_naked.
  - intros t travDiags travStr valDiags root steps strDiags Ht He Hd Hv Hs Hse.
    unfold stored. rewrite app_nil_r. apply Hroot.
    rewrite (providerTraversal_quoted _ _ _ _ _ _ _ Ht He Hd Hv Hs).
    by rewrite Hse.
  - intros t travDiags travStr valDiags t' strDiags Ht He Hd Hs Hfail.
    split; [|done]. apply Hnil. destruct (HasErrors valDiags) eqn:Hv.
    + by eapply providerTraversal_undecodable.
    + destruct Hfail as [?|Hse]; [done|].
      rewrite (providerTraversal_quoted _ _ _ _ _ _ _ Ht He Hd Hv Hs).
      by rewrite Hse.
Qed.

(** The prefix up to the first underscore. *)
Lemma defaultProviderName_prefix (prefix rest : string) :
  (forall c, In c (list_ascii_of_string prefix) -> c <> "_"%char) ->
  resourceTypeDefaultProviderName (prefix +:+ "_" +:+ rest) = prefix.
Proof.
  induction prefix as [|c prefix IH]; intros Hno; simpl; [done|].
  destruct (Ascii.eqb c "_") eqn:Hc.
  - apply Ascii.eqb_eq in Hc. exfalso. apply (Hno c); [by left|done].
  - f_equal. apply IH. intros c' Hc'. apply Hno. by right.
Qed.

Lemma defaultProviderName_whole (typeName : string) :
  (forall c, In c (list_ascii_of_string typeName) -> c <> "_"%char) ->
  resourceTypeDefaultProviderName typeName = typeName.
Proof.
  induction typeName as [|c t IH]; intros Hno; simpl; [done|].
  destruct (Ascii.eqb c "_") eqn:Hc.
  - apply Ascii.eqb_eq in Hc. exfalso. apply (Hno c); [by left|done].
  - f_equal. apply IH. intros c' Hc'. apply Hno. by right.
Qed.

(** C4. A [resource] or [data] block with a new key and no [provider]
    attribute stores its resource with the provider name
    [resourceTypeDefaultProviderName] of its type and an empty alias,
    with no diagnostic of its own; that name is the part of the type
    before its first underscore, or the whole type when it has none:
    "aws" for "aws_instance", "random" for "random_id". *)
Theorem default_provider_inferred
    (mode : ResourceMode) (block : Block) (s : State)
    (typeName name : string) (rest : list string)
    (attrs : gmap string Attribute) (blocks : list Block)
    (contentDiags : hclDiagnostics)
    (HL : Labels block = typeName :: name :: rest)
    (HC : PartialContent (BlockBody block) resourceSchema
          = (attrs, blocks, contentDiags))
    (Hnew : resourcesMap mode (smod s)
              !! MapKey (declaredResource mode block typeName name) = None)
    (Hp : attrs !! "provider" = None) :
  resourceBlock mode block s =
    Ok (tt, {| smod := set_resourcesMap mode
                 (<[MapKey (declaredResource mode block typeName name)
                    := set_Provider
                         {| ProvName := resourceTypeDefaultProviderName typeName;
                            Alias := "" |}
                         (declaredResource mode block typeName name)]>
                    (resourcesMap mode (smod s))) (smod s);
               sdiags := sdiags s ++ contentDiags |})
  /\ (forall prefix suffix,
        (forall c, In c (list_ascii_of_string prefix) -> c <> "_"%char) ->
        resourceTypeDefaultProviderName (prefix +:+ "_" +:+ suffix) = prefix)
  /\ (forall t,
        (forall c, In c (list_ascii_of_string t) -> c <> "_"%char) ->
        resourceTypeDefaultProviderName t = t)
  /\ resourceTypeDefaultProviderName "aws_instance" = "aws"
  /\ resourceTypeDefaultProviderName "random_id" = "random".
Proof.
  split.
  - rewrite (resourceBlock_fresh_run _ _ _ _ _ _ _ _ _ HL HC Hnew).
    unfold providerPanic, providerOf, providerRefDiags. rewrite Hp.
    by rewrite app_nil_r.
  - repeat split; auto using defaultProviderName_prefix,
      defaultProviderName_whole.
Qed.

(** ** Variables and outputs *)





(** Folding insertions over blocks: a name is bound to what the last
    block that declares it gives, or to what the map held before. *)
Lemma fold_insert_lastDeclared {V : Type} (decl : Block -> option (string * V))
    (blocks : list Block) (m0 : gmap string V) (name : string) :
  fold_left
    (fun acc b => match decl b with
                  | Some (n, v) => <[n := v]> acc
                  | None => acc
                  end) blocks m0 !! name =
  match lastDeclared decl name blocks with
  | Some v => Some v
  | None => m0 !! name
  end.
Proof.
  revert m0. induction blocks as [|b blocks IH]; intros m0; simpl; [done|].
  rewrite IH. destruct (lastDeclared decl name blocks) as [v|]; [done|].
  destruct (decl b) as [[n v]|]; [|done].
  destruct (String.eqb n name) eqn:Hn.
  - apply String.eqb_eq in Hn as ->. by rewrite lookup_insert_eq.
  - apply String.eqb_neq in Hn. by rewrite lookup_insert_ne.
Qed.

Lemma Variables_set_resourcesMap mode x m :
  Variables (set_resourcesMap mode x m) = Variables m.
Proof. by destruct mode. Qed.

Lemma Outputs_set_resourcesMap mode x m :
  Outputs (set_resourcesMap mode x m) = Outputs m.
Proof. by destruct mode. Qed.

Lemma RequiredCore_set_resourcesMap mode x m :
  RequiredCore (set_resourcesMap mode x m) = RequiredCore m.
Proof. by destruct mode. Qed.

Lemma blockEffect_Variables (block : Block) (s s' : State) :
  blockEffect block s s' ->
  Variables (smod s') =
  match declaredVariable block with
  | Some (n, v) => <[n := v]> (Variables (smod s))
  | None => Variables (smod s)
  end.
Proof.
  unfold declaredVariable.
  intros [rp Ht Hm _|name rest Ht HL Hm _|name rest Ht HL Hm _|rp Ht Hm _
         |Ht Hr|Ht Hr|Ht ->]; rewrite Ht; simpl; rewrite ?HL, ?Hm; try done;
    destruct Hr as [? ? ? _ _ -> _|? ? ? _ _ -> _];
    by rewrite ?Variables_set_resourcesMap.
Qed.

Lemma blockEffect_Outputs (block : Block) (s s' : State) :
  blockEffect block s s' ->
  Outputs (smod s') =
  match declaredOutput block with
  | Some (n, v) => <[n := v]> (Outputs (smod s))
  | None => Outputs (smod s)
  end.
Proof.
  unfold declaredOutput.
  intros [rp Ht Hm _|name rest Ht HL Hm _|name rest Ht HL Hm _|rp Ht Hm _
         |Ht Hr|Ht Hr|Ht ->]; rewrite Ht; simpl; rewrite ?HL, ?Hm; try done;
    destruct Hr as [? ? ? _ _ -> _|? ? ? _ _ -> _];
    by rewrite ?Outputs_set_resourcesMap.
Qed.

Lemma blockEffect_RequiredCore (block : Block) (s s' : State) :
  blockEffect block s s' ->
  RequiredCore (smod s') = RequiredCore (smod s) ++ requiredVersions block.
Proof.
  intros [rp Ht Hm _|name rest Ht HL Hm _|name rest Ht HL Hm _|rp Ht Hm _
         |Ht Hr|Ht Hr|Ht ->]; rewrite ?Hm; simpl; try done;
    unfold requiredVersions; rewrite Ht; simpl; rewrite ?app_nil_r; try done;
    destruct Hr as [? ? ? _ _ -> _|? ? ? _ _ -> _];
    by rewrite ?RequiredCore_set_resourcesMap.
Qed.

(** C2. After a run, a name is a key of [Variables] exactly when some
    [variable] block is labelled with it, and the entry is the one the
    last such block describes, in file-then-block order; the same holds
    for [Outputs] and [output] blocks. A [variable] or [output] block that
    runs to its end stores its entry whatever the map held under the
    name, and the diagnostics it appends are the same whether or not the
    name was there. *)
Theorem last_declaration_wins
    (dir : string) (m : Module_) (ds : list Diagnostic)
    (H : loadModule dir = Ok (m, ds)) :
  (forall name,
      Variables m !! name = lastDeclared declaredVariable name (allBlocks dir))
  /\ (forall name,
      Outputs m !! name = lastDeclared declaredOutput name (allBlocks dir))
  /\ (forall block s s' name rest,
      Labels block = name :: rest ->
      variableBlock block s = Ok (tt, s') ->
      Variables (smod s') !! name = Some (variableOf block name)
      /\ sdiags s' = sdiags s ++ variableDiags block)
  /\ (forall block s s' name rest,
      Labels block = name :: rest ->
      outputBlock block s = Ok (tt, s') ->
      Outputs (smod s') !! name = Some (outputOf block name)
      /\ sdiags s' = sdiags s ++ outputDiags block).
Proof.
  apply loadModule_Ok in H as (s1 & Hrun & -> & _).
  refine (conj _ (conj _ (conj _ _))).
  - intros name.
    rewrite (runModule_fold Variables
               (fun b acc => match declaredVariable b with
                             | Some (n, v) => <[n := v]> acc
                             | None => acc
                             end) blockEffect_Variables _ _ Hrun).
    rewrite fold_insert_lastDeclared.
    destruct (lastDeclared declaredVariable name (allBlocks dir)); [done|].
    apply lookup_empty.
  - intros name.
    rewrite (runModule_fold Outputs
               (fun b acc => match declaredOutput b with
                             | Some (n, v) => <[n := v]> acc
                             | None => acc
                             end) blockEffect_Outputs _ _ Hrun).
    rewrite fold_insert_lastDeclared.
    destruct (lastDeclared declaredOutput name (allBlocks dir)); [done|].
    apply lookup_empty.
  - intros block s s' name rest HL Hb.
    destruct (variableBlock_Ok _ _ _ _ _ HL Hb) as [-> ->].
    simpl. by rewrite lookup_insert_eq.
  - intros block s s' name rest HL Hb.
    destruct (outputBlock_Ok _ _ _ _ _ HL Hb) as [-> ->].
    simpl. by rewrite lookup_insert_eq.
Qed.

Lemma fold_left_app_flat_map {A B : Type} (f : A -> list B) (xs : list A)
    (l0 : list B) :
  fold_left (fun acc x => acc ++ f x) xs l0 = l0 ++ flat_map f xs.
Proof.
  revert l0. induction xs as [|x xs IH]; intros l0; simpl.
  - by rewrite app_nil_r.
  - by rewrite IH, <- app_assoc.
Qed.

(** C7, as the code has it. After a run, [RequiredCore] holds, in
    file-then-block order and with repetitions kept, the decoded string
    of every [required_version] attribute of a [terraform] block whose
    decoding returned no error diagnostic, and nothing else. *)
Theorem required_core_in_encounter_order
    (dir : string) (m : Module_) (ds : list Diagnostic)
    (H : loadModule dir = Ok (m, ds)) :
  RequiredCore m = flat_map requiredVersions (allBlocks dir).
Proof.
  apply loadModule_Ok in H as (s1 & Hrun & -> & _).
  rewrite (runModule_fold RequiredCore (fun b acc => acc ++ requiredVersions b)
             blockEffect_RequiredCore _ _ Hrun).
  by rewrite fold_left_app_flat_map.
Qed.

(** ** Diagnostics *)






(** * Further properties of the run *)

(** ** The directory scan and the choice of the parser *)

(** X1. A directory in which the scan finds neither primary nor override
    files gives the empty module, and the diagnostics of the scan followed
    by one error, "No Terraform configuration files"; no file is parsed
    and nothing panics. *)
Theorem empty_directory_reported (dir : string) (diags : hclDiagnostics)
    (H : dirFiles dir = ([], [], diags)) :
  loadModule dir =
    Ok (newModule dir,
        diagnosticsHCL diags ++ [diagnosticHCL (noConfigurationFiles dir)])
  /\ DiagSeverity (diagnosticHCL (noConfigurationFiles dir)) = DiagError
  /\ DiagPos (diagnosticHCL (noConfigurationFiles dir)) = None.
Proof.
  unfold loadModule, runModule, primaryPathsOf, initialState.
  rewrite H. simpl. unfold mret, M_ret. simpl.
  unfold diagnosticsHCL. by rewrite fmap_app.
Qed.

(** X2. Override files are counted and never parsed: a directory with
    override files only gives the empty module and the diagnostics of the
    scan alone, without the error of the empty directory. *)
Theorem override_files_not_read (dir : string) (o : string)
    (overrides : list string) (diags : hclDiagnostics)
    (H : dirFiles dir = ([], o :: overrides, diags)) :
  loadModule dir = Ok (newModule dir, diagnosticsHCL diags).
Proof.
  unfold loadModule, runModule, primaryPathsOf, initialState.
  by rewrite H.
Qed.

Lemma substring_whole (s : string) : substring 0 (String.length s) s = s.
Proof. induction s as [|c s IH]; simpl; [done|]. by rewrite IH. Qed.

Lemma substring_append_r (p t : string) :
  substring (String.length p) (String.length t) (p +:+ t) = t.
Proof. induction p as [|c p IH]; simpl; [apply substring_whole|exact IH]. Qed.

Lemma substring_split (s : string) (n : nat) :
  n <= String.length s ->
  s = substring 0 n s +:+ substring n (String.length s - n) s.
Proof.
  revert n. induction s as [|c s IH]; intros [|n] Hn; simpl in *; try lia.
  - done.
  - by rewrite substring_whole.
  - change (String c s =
            String c (substring 0 n s
                      +:+ substring n (String.length s - n) s)).
    f_equal. apply IH. lia.
Qed.

Lemma length_append (p t : string) :
  String.length (p +:+ t) = String.length p + String.length t.
Proof.
  induction p as [|c p IH]; [done|].
  change (S (String.length (p +:+ t)) = S (String.length p + String.length t)).
  by rewrite IH.
Qed.

(** X3. [HasSuffix], by which line 33 chooses the parser, holds exactly
    of the names that end in the suffix: a name is parsed as JSON exactly
    when it is some prefix followed by ".json". *)
Theorem json_suffix_selects_parser (filename : string) :
  (HasSuffix filename ".json" = true <-> exists p, filename = p +:+ ".json")
  /\ ((exists p, filename = p +:+ ".json") ->
      parseFile filename = ParseJSONFile filename)
  /\ ((forall p, filename <> p +:+ ".json") ->
      parseFile filename = ParseHCLFile filename).
Proof.
  assert (Hs : forall s suffix,
             HasSuffix s suffix = true <-> exists p, s = p +:+ suffix).
  { intros s suffix. unfold HasSuffix. split.
    - intros H. apply andb_true_iff in H as [Hl He].
      apply Nat.leb_le in Hl. apply String.eqb_eq in He.
      exists (substring 0 (String.length s - String.length suffix) s).
      pose proof (substring_split s (String.length s - String.length suffix))
        as Hsplit.
      replace (String.length s - (String.length s - String.length suffix))
        with (String.length suffix) in Hsplit by lia.
      rewrite He in Hsplit. apply Hsplit. lia.
    - intros [p ->]. rewrite length_append. apply andb_true_iff. split.
      + apply Nat.leb_le. lia.
      + replace (String.length p + String.length suffix - String.length suffix)
          with (String.length p) by lia.
        rewrite substring_append_r. apply String.eqb_refl. }
  split; [apply Hs|]. unfold parseFile. split.
  - intros H. apply Hs in H. by rewrite H.
  - intros H. destruct (HasSuffix filename ".json") eqn:E; [|done].
    apply Hs in E as [p ->]. by destruct (H p).
Qed.

(** ** Panics *)

Lemma index_short (labels : list string) (i : nat) (s : State) :
  length labels <= i -> index labels i s = Panicked IndexOutOfRange.
Proof.
  intros H. unfold index. by rewrite (lookup_ge_None_2 labels i H).
Qed.

Lemma variableBlock_unlabelled (block : Block) (s : State) :
  Labels block = [] -> variableBlock block s = Panicked IndexOutOfRange.
Proof.
  intros HL. unfold variableBlock.
  destruct (PartialContent (BlockBody block) variableSchema) as [[attrs ?] ?].
  by rewrite HL.
Qed.

Lemma outputBlock_unlabelled (block : Block) (s : State) :
  Labels block = [] -> outputBlock block s = Panicked IndexOutOfRange.
Proof.
  intros HL. unfold outputBlock.
  destruct (PartialContent (BlockBody block) outputSchema) as [[attrs ?] ?].
  by rewrite HL.
Qed.

Lemma providerBlock_unlabelled (block : Block) (s : State) :
  Labels block = [] -> providerBlock block s = Panicked IndexOutOfRange.
Proof.
  intros HL. unfold providerBlock.
  destruct (PartialContent (BlockBody block) providerConfigSchema)
    as [[attrs ?] ?].
  by rewrite HL.
Qed.

Lemma resourceBlock_unlabelled (mode : ResourceMode) (block : Block)
    (s : State) :
  length (Labels block) < 2 ->
  resourceBlock mode block s = Panicked IndexOutOfRange.
Proof.
  intros HL. unfold resourceBlock.
  destruct (PartialContent (BlockBody block) resourceSchema) as [[attrs ?] ?].
  destruct (Labels block) as [|typeName [|name rest]]; simpl in HL;
    [done|done|lia].
Qed.

(** An [output] block with a label never panics. *)
Lemma outputBlock_run (block : Block) (s : State) (name : string)
    (rest : list string) :
  Labels block = name :: rest ->
  outputBlock block s =
  Ok (tt, {| smod := set_Outputs (<[name := outputOf block name]>
                                    (Outputs (smod s))) (smod s);
             sdiags := sdiags s ++ outputDiags block |}).
Proof.
  intros HL. unfold outputBlock, outputOf, outputDiags, outputDescription,
    stringDiags.
  destruct (PartialContent (BlockBody block) outputSchema)
    as [[attrs blocks] contentDiags].
  rewrite HL, index_cons. cbn [fst snd].
  destruct (attrs !! "description") as [de|];
    [destruct (DecodeExpression (Expr de)) as [description dd]|];
    run; simpl;
    rewrite ?alter_insert_eq, ?app_nil_r, <- ?app_assoc; simpl;
    reflexivity.
Qed.

(** A [provider] block with a label never panics: it leaves under its
    label what was there followed by the accepted [version], if any. *)
Lemma providerBlock_run (block : Block) (s : State) (name : string)
    (rest : list string) :
  Labels block = name :: rest ->
  providerBlock block s =
  Ok (tt, {| smod := set_RequiredProviders
                       (<[name := default [] (RequiredProviders (smod s) !! name)
                                  ++ acceptedString
                                       (PartialContent (BlockBody block)
                                          providerConfigSchema).1.1 "version"]>
                          (RequiredProviders (smod s))) (smod s);
             sdiags := sdiags s ++ providerDiags block |}).
Proof.
  intros HL. unfold providerBlock, providerDiags, providerVersion,
    providerEnsureEntry, acceptedString, stringDiags.
  destruct (PartialContent (BlockBody block) providerConfigSchema)
    as [[attrs blocks] contentDiags].
  rewrite HL, index_cons. cbn [fst snd].
  destruct (attrs !! "version") as [attr|];
    [destruct (DecodeExpression (Expr attr)) as [version valDiags];
     cbn [fst snd]; destruct (HasErrors valDiags)|];
    run; simpl; rewrite ?lookup_insert_eq;
    try (destruct (RequiredProviders (smod s) !! name) as [old|] eqn:Hold;
         simpl; rewrite ?app_nil_r;
         try rewrite (insert_id _ _ _ Hold);
         rewrite ?set_RequiredProviders_same);
    rewrite ?app_nil_r, <- ?app_assoc; try reflexivity;
    by destruct s.
Qed.

(** Whatever makes the case of a block panic is one of the four causes. *)
Lemma processBlock_panic_cause (block : Block) (s : State) (p : Panic) :
  processBlock block s = Panicked p -> panicCause block p.
Proof.
  unfold processBlock, panicCause, labelsRead, handledType.
  by_block_type block; intros H.
  - destruct (terraformBlock_run block s) as [rp Hrun]. congruence.
  - destruct (Labels block) as [|name rest] eqn:HL.
    + rewrite variableBlock_unlabelled in H by done. simplify_eq.
      left. simpl. split; [done|lia].
    + rewrite (variableBlock_run _ _ _ _ HL) in H. right; left.
      split; [done|]. destruct (defaultPanic _); by simplify_eq.
  - destruct (Labels block) as [|name rest] eqn:HL.
    + rewrite outputBlock_unlabelled in H by done. simplify_eq.
      left. simpl. split; [done|lia].
    + by rewrite (outputBlock_run _ _ _ _ HL) in H.
  - destruct (Labels block) as [|name rest] eqn:HL.
    + rewrite providerBlock_unlabelled in H by done. simplify_eq.
      left. simpl. split; [done|lia].
    + by rewrite (providerBlock_run _ _ _ _ HL) in H.
  - destruct (Labels block) as [|typeName [|name rest]] eqn:HL;
      [rewrite resourceBlock_unlabelled in H by (rewrite HL; simpl; lia);
       simplify_eq; left; simpl; split; [done|lia]..|].
    destruct (PartialContent (BlockBody block) resourceSchema)
      as [[attrs blocks] contentDiags] eqn:HC.
    destruct (resourcesMap ManagedResourceMode (smod s)
                !! MapKey (declaredResource ManagedResourceMode block
                             typeName name)) as [r0|] eqn:Hkey.
    + by rewrite (resourceBlock_duplicate _ _ _ _ _ _ _ _ _ HL HC) in H by eauto.
    + rewrite (resourceBlock_fresh_run _ _ _ _ _ _ _ _ _ HL HC Hkey) in H.
      right; right; left. split; [by left|]. simpl.
      destruct (providerPanic attrs); by simplify_eq.
  - destruct (Labels block) as [|typeName [|name rest]] eqn:HL;
      [rewrite resourceBlock_unlabelled in H by (rewrite HL; simpl; lia);
       simplify_eq; left; simpl; split; [done|lia]..|].
    destruct (PartialContent (BlockBody block) resourceSchema)
      as [[attrs blocks] contentDiags] eqn:HC.
    destruct (resourcesMap DataResourceMode (smod s)
                !! MapKey (declaredResource DataResourceMode block
                             typeName name)) as [r0|] eqn:Hkey.
    + by rewrite (resourceBlock_duplicate _ _ _ _ _ _ _ _ _ HL HC) in H by eauto.
    + rewrite (resourceBlock_fresh_run _ _ _ _ _ _ _ _ _ HL HC Hkey) in H.
      right; right; left. split; [by right|]. simpl.
      destruct (providerPanic attrs); by simplify_eq.
  - discriminate.
  - unfold panic in H. simplify_eq. right; right; right.
    by split.
Qed.

Lemma processBlock_runsToEnd (block : Block) (s : State) :
  runsToEnd block = true -> exists s', processBlock block s = Ok (tt, s').
Proof.
  intros H. destruct (processBlock block s) as [[[] s']|p] eqn:E; [eauto|].
  apply processBlock_panic_cause in E. exfalso. unfold runsToEnd in H.
  apply andb_true_iff in H as [H Hres]. apply andb_true_iff in H as [H Hvar].
  apply andb_true_iff in H as [Hty Hlab]. apply Nat.leb_le in Hlab.
  destruct E as [[_ Hlen]|[[Hv Hp]|[[Hr Hp]|[_ Hh]]]].
  - lia.
  - rewrite Hv, Hp in Hvar. discriminate.
  - rewrite Hp in Hres. by destruct Hr as [Hr|Hr]; rewrite Hr in Hres.
  - congruence.
Qed.

Lemma forEach_Ok {A : Type} (body : A -> M unit) (xs : list A) :
  (forall x, In x xs -> forall s, exists s', body x s = Ok (tt, s')) ->
  forall s, exists s', forEach xs body s = Ok (tt, s').
Proof.
  induction xs as [|x xs IH]; intros Hbody s; simpl.
  - by exists s.
  - destruct (Hbody x (or_introl eq_refl) s) as [s1 H1].
    destruct (IH (fun y Hy => Hbody y (or_intror Hy)) s1) as [s2 H2].
    exists s2. by rewrite (bind_Ok_eq _ _ _ _ _ H1).
Qed.


(** A file runs its blocks, if its parsing gave any, from the state with
    the diagnostics of the parsing and of the root content appended. *)
Lemma loadFile_blocks (filename : string) (s : State) :
  exists ds,
    loadFile filename s =
    forEach (fileBlocks filename) processBlock
      {| smod := smod s; sdiags := sdiags s ++ ds |}.
Proof.
  unfold loadFile, fileBlocks.
  destruct (parseFile filename) as [[body|] fileDiags].
  - destruct (PartialContent body rootSchema) as [[attrs blocks] contentDiags].
    exists (fileDiags ++ contentDiags). run. simpl. by rewrite app_assoc.
  - exists fileDiags. by run.
Qed.


(** X5. When no block of the primary files has a cause of panic, the run
    returns a module and its diagnostics. *)
Theorem well_formed_run_returns (dir : string)
    (H : forallb runsToEnd (allBlocks dir) = true) :
  exists m ds, loadModule dir = Ok (m, ds).
Proof.
  assert (exists s, runModule dir = Ok (tt, s)) as [s Hrun].
  { unfold runModule. apply forEach_Ok. intros f Hf s.
    destruct (loadFile_blocks f s) as [ds ->].
    apply forEach_Ok. intros block Hb s1. apply processBlock_runsToEnd.
    rewrite forallb_forall in H. apply H.
    unfold allBlocks. apply in_flat_map. eauto. }
  unfold loadModule. rewrite Hrun. eauto.
Qed.





(** X7. A [module] block changes nothing, neither module nor diagnostics;
    a block whose type is none of the seven of the switch panics with
    that type, and no other block does. *)
Theorem unhandled_block_type_panics (block : Block) (s : State) :
  (Type_ block = "module" -> processBlock block s = Ok (tt, s))
  /\ (forall type,
        processBlock block s = Panicked (UnhandledBlockType type)
        <-> type = Type_ block /\ handledType type = false).
Proof.
  split.
  - intros H. unfold processBlock. by rewrite H.
  - intros type. split.
    + intros H. apply processBlock_panic_cause in H.
      destruct H as [[? _]|[[_ Hp]|[[_ Hp]|[Hp Hh]]]]; [done| | |].
      * unfold defaultPanic in Hp.
        repeat (case_match; simplify_eq).
      * unfold providerPanic in Hp.
        repeat (case_match; simplify_eq).
      * simplify_eq. done.
    + intros [-> Hh]. unfold handledType in Hh. unfold processBlock.
      repeat (apply orb_false_iff in Hh as [Hh ?]).
      by repeat case_match; simplify_eq.
Qed.

(** ** Provider requirements *)













(** X9. A [provider] block with a label never panics. Under its label it
    leaves what was there followed by its [version], when that decodes
    without errors, so a valid constraint is appended after the earlier
    ones; the entries of all other names stay as they were. *)
Theorem provider_block_appends_version
    (block : Block) (s : State) (name : string) (rest : list string)
    (HT : Type_ block = "provider")
    (HL : Labels block = name :: rest) :
  exists s',
    processBlock block s = Ok (tt, s')
    /\ RequiredProviders (smod s') !! name =
       Some (default [] (RequiredProviders (smod s) !! name)
             ++ acceptedString
                  (PartialContent (BlockBody block) providerConfigSchema).1.1
                  "version")
    /\ (forall other, other <> name ->
          RequiredProviders (smod s') !! other
          = RequiredProviders (smod s) !! other)
    /\ length (acceptedString
                 (PartialContent (BlockBody block) providerConfigSchema).1.1
                 "version") <= 1
    /\ sdiags s' = sdiags s ++ providerDiags block.
Proof.
  eexists. split.
  - unfold processBlock. rewrite HT. simpl. exact (providerBlock_run _ _ _ _ HL).
  - simpl. rewrite lookup_insert_eq. split; [done|]. split.
    + intros other Hne. by rewrite lookup_insert_ne.
    + split; [|done]. unfold acceptedString.
      repeat case_match; simpl; lia.
Qed.


(** X11. Every case of the switch writes to its own collection only:
    [RequiredCore] changes in a [terraform] block at most,
    [RequiredProviders] in a [terraform] or [provider] block, [Variables]
    in a [variable] block, [Outputs] in an [output] block,
    [ManagedResources] in a [resource] block and [DataResources] in a
    [data] block; and the diagnostics only grow at their end. *)
Theorem block_writes_own_collection
    (block : Block) (s s' : State)
    (H : processBlock block s = Ok (tt, s')) :
  (Type_ block <> "terraform" -> RequiredCore (smod s') = RequiredCore (smod s))
  /\ (Type_ block <> "terraform" -> Type_ block <> "provider" ->
      RequiredProviders (smod s') = RequiredProviders (smod s))
  /\ (Type_ block <> "variable" -> Variables (smod s') = Variables (smod s))
  /\ (Type_ block <> "output" -> Outputs (smod s') = Outputs (smod s))
  /\ (Type_ block <> "resource" ->
      ManagedResources (smod s') = ManagedResources (smod s))
  /\ (Type_ block <> "data" -> DataResources (smod s') = DataResources (smod s))
  /\ exists extra, sdiags s' = sdiags s ++ extra.
Proof.
  apply processBlock_effect in H.
  destruct H as [rp Ht Hm Hd|n rest Ht _ Hm Hd|n rest Ht _ Hm Hd|rp Ht Hm Hd
                |Ht Hr|Ht Hr|Ht ->];
    try (rewrite Hm, Hd; rewrite Ht;
         repeat split; try done; eauto).
  - destruct Hr as [? ? ? _ _ -> ->|? ? ? _ _ -> ->]; rewrite Ht;
      repeat split; try done; eauto.
  - destruct Hr as [? ? ? _ _ -> ->|? ? ? _ _ -> ->]; rewrite Ht;
      repeat split; try done; eauto.
  - repeat split; try done. exists []. by rewrite app_nil_r.
Qed.

(** X12. For a [variable] block whose [default] evaluates to a wholly
    known value, the outcome follows the two library calls: the block
    panics with the error of the serialization when that fails, with the
    error of the re-parsing when that fails, and else runs to its end and
    stores what the re-parsing returned as the default, a JSON null
    giving the nil default. *)
Theorem default_follows_json_round_trip
    (block : Block) (s : State) (name : string) (rest : list string)
    (attrs : gmap string Attribute) (blocks : list Block)
    (contentDiags : hclDiagnostics) (attr : Attribute)
    (val : ctyValue) (valDiags : hclDiagnostics)
    (HL : Labels block = name :: rest)
    (HC : PartialContent (BlockBody block) variableSchema
          = (attrs, blocks, contentDiags))
    (Hd : attrs !! "default" = Some attr)
    (Hv : ExprValue (Expr attr) = (val, valDiags))
    (Hk : IsWhollyKnown val = true) :
  match ctyjson_Marshal val with
  | inr err => variableBlock block s = Panicked (FailedToSerializeDefault err)
  | inl valJSON =>
      match json_Unmarshal valJSON with
      | inr err => variableBlock block s = Panicked (FailedToReparseDefault err)
      | inl def =>
          exists s',
            variableBlock block s = Ok (tt, s')
            /\ Default <$> Variables (smod s') !! name = Some def
            /\ sdiags s' = sdiags s ++ variableDiags block
      end
  end.
Proof.
  rewrite (variableBlock_run _ _ _ _ HL). unfold defaultPanic.
  rewrite HC. cbn [fst snd]. rewrite Hd, Hv. cbn [fst snd]. rewrite Hk.
  destruct (ctyjson_Marshal val) as [valJSON|err] eqn:Hm; [|done].
  destruct (json_Unmarshal valJSON) as [def|err] eqn:Hu; [|done].
  eexists. split; [reflexivity|]. simpl. rewrite lookup_insert_eq. simpl.
  split; [|done]. unfold variableOf, defaultOf. simpl.
  rewrite HC. cbn [fst snd]. rewrite Hd, Hv. cbn [fst snd].
  by rewrite Hk, Hm, Hu.
Qed.

(** ** Where the entries of the collections come from *)

(** Folding insertions that keep what is there: a key is bound to what
    the map held before, or else to what the first block that declares
    it gives. *)
Lemma fold_keep_firstDeclared {V : Type} (decl : Block -> option (string * V))
    (blocks : list Block) (m0 : gmap string V) (key : string) :
  fold_left
    (fun acc b => match decl b with
                  | Some (k, v) =>
                      match acc !! k with
                      | Some _ => acc
                      | None => <[k := v]> acc
                      end
                  | None => acc
                  end) blocks m0 !! key =
  match m0 !! key with
  | Some v => Some v
  | None => firstDeclared decl key blocks
  end.
Proof.
  revert m0. induction blocks as [|b blocks IH]; intros m0; simpl.
  - by destruct (m0 !! key).
  - rewrite IH. destruct (decl b) as [[k v]|]; [|done].
    destruct (String.eqb_spec k key) as [->|Hne].
    + destruct (m0 !! key) as [v0|] eqn:E; [by rewrite E|].
      by rewrite lookup_insert_eq.
    + destruct (m0 !! k) as [v0|]; [done|]. by rewrite lookup_insert_ne.
Qed.

Lemma resourceEntry_other (mode mode' : ResourceMode) (block : Block) :
  Type_ block = blockTypeOf mode' -> mode <> mode' ->
  resourceEntry mode block = None.
Proof.
  intros Ht Hne. unfold resourceEntry. rewrite Ht.
  by destruct mode, mode'.
Qed.

Lemma resourceEffect_step (mode mode' : ResourceMode) (block : Block)
    (s s' : State) :
  Type_ block = blockTypeOf mode' ->
  resourceEffect mode' block s s' ->
  resourcesMap mode (smod s') =
  match resourceEntry mode block with
  | Some (k, r) =>
      match resourcesMap mode (smod s) !! k with
      | Some _ => resourcesMap mode (smod s)
      | None => <[k := r]> (resourcesMap mode (smod s))
      end
  | None => resourcesMap mode (smod s)
  end.
Proof.
  intros Ht Hr. destruct (decide (mode = mode')) as [->|Hne].
  - unfold resourceEntry. rewrite Ht, String.eqb_refl.
    destruct Hr as [typeName name rest HL [r0 Hdup] Hm _
                   |typeName name rest HL Hnew Hm _]; rewrite HL, Hm.
    + by rewrite Hdup.
    + by rewrite Hnew, resourcesMap_set.
  - rewrite (resourceEntry_other _ _ _ Ht Hne).
    destruct Hr as [? ? ? _ _ -> _|? ? ? _ _ -> _]; [done|].
    by rewrite resourcesMap_set_other.
Qed.

(** What a block that runs to its end does to a resource map: it adds
    its entry under its key unless the key is taken. *)
Lemma blockEffect_resourceStep (mode : ResourceMode) (block : Block)
    (s s' : State) :
  blockEffect block s s' ->
  resourcesMap mode (smod s') =
  match resourceEntry mode block with
  | Some (k, r) =>
      match resourcesMap mode (smod s) !! k with
      | Some _ => resourcesMap mode (smod s)
      | None => <[k := r]> (resourcesMap mode (smod s))
      end
  | None => resourcesMap mode (smod s)
  end.
Proof.
  intros [rp Ht Hm _|n rest Ht _ Hm _|n rest Ht _ Hm _|rp Ht Hm _
         |Ht Hr|Ht Hr|Ht ->];
    try (by eapply (resourceEffect_step mode ManagedResourceMode));
    try (by eapply (resourceEffect_step mode DataResourceMode));
    unfold resourceEntry; rewrite Ht, ?Hm;
    rewrite ?resourcesMap_frame_RequiredProviders,
      ?resourcesMap_frame_RequiredCore, ?resourcesMap_frame_Variables,
      ?resourcesMap_frame_Outputs;
    by destruct mode.
Qed.

Lemma runModule_resources (dir : string) (s' : State) (mode : ResourceMode)
    (key : string) :
  runModule dir = Ok (tt, s') ->
  resourcesMap mode (smod s') !! key
  = firstDeclared (resourceEntry mode) key (allBlocks dir).
Proof.
  intros Hrun.
  rewrite (runModule_fold (resourcesMap mode)
             (fun b acc => match resourceEntry mode b with
                           | Some (k, r) =>
                               match acc !! k with
                               | Some _ => acc
                               | None => <[k := r]> acc
                               end
                           | None => acc
                           end)
             (blockEffect_resourceStep mode) _ _ Hrun).
  rewrite fold_keep_firstDeclared. by destruct mode.
Qed.

(** X13. After a run, each resource map binds a key to the entry of the
    first [resource] (respectively [data]) block with that key, in
    file-then-block order, whatever blocks with the same key follow, and
    binds no other key. *)
Theorem first_resource_declaration_kept
    (dir : string) (m : Module_) (ds : list Diagnostic)
    (H : loadModule dir = Ok (m, ds)) :
  forall mode key,
    resourcesMap mode m !! key
    = firstDeclared (resourceEntry mode) key (allBlocks dir).
Proof.
  apply loadModule_Ok in H as (s1 & Hrun & -> & _).
  intros mode key. by apply runModule_resources.
Qed.

Lemma lastDeclared_Some {V : Type} (decl : Block -> option (string * V))
    (name : string) (blocks : list Block) (v : V) :
  lastDeclared decl name blocks = Some v ->
  exists block, In block blocks /\ decl block = Some (name, v).
Proof.
  induction blocks as [|b blocks IH]; simpl; [done|].
  destruct (lastDeclared decl name blocks) as [v'|].
  - intros E. destruct (IH E) as (block & ? & ?). eauto.
  - destruct (decl b) as [[n w]|] eqn:Hb; [|done].
    destruct (String.eqb_spec n name) as [->|]; [|done].
    intros [= ->]. eauto.
Qed.

Lemma firstDeclared_Some {V : Type} (decl : Block -> option (string * V))
    (key : string) (blocks : list Block) (v : V) :
  firstDeclared decl key blocks = Some v ->
  exists block, In block blocks /\ decl block = Some (key, v).
Proof.
  induction blocks as [|b blocks IH]; simpl; [done|].
  destruct (decl b) as [[k w]|] eqn:Hb.
  - destruct (String.eqb_spec k key) as [->|].
    + intros [= ->]. eauto.
    + intros E. destruct (IH E) as (block & ? & ?). eauto.
  - intros E. destruct (IH E) as (block & ? & ?). eauto.
Qed.

Lemma runModule_Variables (dir : string) (s' : State) (name : string) :
  runModule dir = Ok (tt, s') ->
  Variables (smod s') !! name
  = lastDeclared declaredVariable name (allBlocks dir).
Proof.
  intros Hrun.
  rewrite (runModule_fold Variables
             (fun b acc => match declaredVariable b with
                           | Some (n, v) => <[n := v]> acc
                           | None => acc
                           end)
             blockEffect_Variables _ _ Hrun).
  rewrite fold_insert_lastDeclared. simpl. rewrite lookup_empty.
  by destruct (lastDeclared _ _ _).
Qed.

Lemma runModule_Outputs (dir : string) (s' : State) (name : string) :
  runModule dir = Ok (tt, s') ->
  Outputs (smod s') !! name
  = lastDeclared declaredOutput name (allBlocks dir).
Proof.
  intros Hrun.
  rewrite (runModule_fold Outputs
             (fun b acc => match declaredOutput b with
                           | Some (n, v) => <[n := v]> acc
                           | None => acc
                           end)
             blockEffect_Outputs _ _ Hrun).
  rewrite fold_insert_lastDeclared. simpl. rewrite lookup_empty.
  by destruct (lastDeclared _ _ _).
Qed.

(** X14. A run invents no entry. Every variable of the returned module
    sits under its own name and was declared by a [variable] block of the
    primary files labelled with that name, whose position it carries;
    the same holds for outputs; and every resource was declared by a
    [resource] or [data] block, of the mode of its map, whose two labels
    are its type and name. *)
Theorem entries_come_from_blocks
    (dir : string) (m : Module_) (ds : list Diagnostic)
    (H : loadModule dir = Ok (m, ds)) :
  (forall name v,
      Variables m !! name = Some v ->
      VarName v = name
      /\ exists block rest,
           In block (allBlocks dir) /\ Type_ block = "variable"
           /\ Labels block = name :: rest
           /\ VarPos v = sourcePosHCL (DefRange block))
  /\ (forall name o,
      Outputs m !! name = Some o ->
      OutName o = name
      /\ exists block rest,
           In block (allBlocks dir) /\ Type_ block = "output"
           /\ Labels block = name :: rest
           /\ OutPos o = sourcePosHCL (DefRange block))
  /\ (forall mode key r,
      resourcesMap mode m !! key = Some r ->
      Mode r = mode
      /\ exists block rest,
           In block (allBlocks dir) /\ Type_ block = blockTypeOf mode
           /\ Labels block = ResType r :: ResName r :: rest
           /\ ResPos r = sourcePosHCL (DefRange block)).
Proof.
  apply loadModule_Ok in H as (s1 & Hrun & -> & _).
  refine (conj _ (conj _ _)).
  - intros name v Hv. rewrite (runModule_Variables _ _ _ Hrun) in Hv.
    apply lastDeclared_Some in Hv as (block & Hin & Hd).
    unfold declaredVariable in Hd.
    destruct (String.eqb_spec (Type_ block) "variable") as [Ht|]; [|done].
    destruct (Labels block) as [|n rest] eqn:HL; [done|].
    simplify_eq. split; [done|]. by exists block, rest.
  - intros name o Ho. rewrite (runModule_Outputs _ _ _ Hrun) in Ho.
    apply lastDeclared_Some in Ho as (block & Hin & Hd).
    unfold declaredOutput in Hd.
    destruct (String.eqb_spec (Type_ block) "output") as [Ht|]; [|done].
    destruct (Labels block) as [|n rest] eqn:HL; [done|].
    simplify_eq. split; [done|]. by exists block, rest.
  - intros mode key r Hr. rewrite (runModule_resources _ _ _ _ Hrun) in Hr.
    apply firstDeclared_Some in Hr as (block & Hin & Hd).
    unfold resourceEntry in Hd.
    destruct (String.eqb_spec (Type_ block) (blockTypeOf mode)) as [Ht|];
      [|done].
    destruct (Labels block) as [|typeName [|name rest]] eqn:HL; [done|done|].
    simplify_eq. split; [done|]. by exists block, rest.
Qed.

(** ** The diagnostics of a run, in order and in number *)








End Properties.

(** * The theorems on concrete modules *)

Section Witnesses.

Import Stub Examples.

#[local] Existing Instance library.


Lemma last_declaration_wins_witness :
  exists m ds,
    loadModule (Hcl := library) (Env := collaborators twiceDeclared) "." = Ok (m, ds)
    /\ VarDescription <$> Variables m !! "x" = Some "second".
Proof.
  destruct (loadModule (Hcl := library) (Env := collaborators twiceDeclared) ".")
    as [[m ds]|p] eqn:Hload; [|vm_compute in Hload; discriminate].
  exists m, ds. split; [reflexivity|].
  rewrite (proj1 (last_declaration_wins
                    (Hcl := library) (Env := collaborators twiceDeclared) "." m ds Hload) "x").
  vm_compute. reflexivity.
Defined.

Lemma provider_reference_decoding_witness :
  Labels withNakedProvider = ["aws_instance"; "web"]
  /\ exists s',
       resourceBlock (Hcl := library) (Env := collaborators (directory []))
         ManagedResourceMode withNakedProvider emptyState = Ok (tt, s')
       /\ Provider <$> ManagedResources (smod s') !! "managed:aws_instance.web"
          = Some {| ProvName := "aws"; Alias := "east" |}.
Proof.
  split; [reflexivity|].
  eexists. split.
  - refine (proj1 (provider_reference_decoding
                     (Hcl := library) (Env := collaborators (directory []))
                     ManagedResourceMode withNakedProvider emptyState
                     "aws_instance" "web" []
                     (list_to_map [attribute "provider" (bare "aws.east")])
                     [] [] (attr "provider" (bare "aws.east"))
                     eq_refl eq_refl _ _)
                  "aws" [TraverseAttr "east"] [] _ _);
      vm_compute; reflexivity.
  - vm_compute. reflexivity.
Defined.

Lemma default_provider_inferred_witness :
  Labels withoutProvider = ["aws_instance"; "web"]
  /\ exists s',
       resourceBlock (Hcl := library) (Env := collaborators (directory []))
         ManagedResourceMode withoutProvider emptyState = Ok (tt, s')
       /\ Provider <$> ManagedResources (smod s') !! "managed:aws_instance.web"
          = Some {| ProvName := "aws"; Alias := "" |}.
Proof.
  split; [reflexivity|].
  eexists. split.
  - refine (proj1 (default_provider_inferred
                     (Hcl := library) (Env := collaborators (directory []))
                     ManagedResourceMode withoutProvider emptyState
                     "aws_instance" "web" [] ∅ [] []
                     eq_refl eq_refl _ _));
      vm_compute; reflexivity.
  - vm_compute. reflexivity.
Defined.



Lemma required_core_in_encounter_order_witness :
  exists m ds,
    loadModule (Hcl := library) (Env := collaborators withRequiredVersion) "." = Ok (m, ds)
    /\ RequiredCore m = [">= 0.12"].
Proof.
  destruct (loadModule (Hcl := library) (Env := collaborators withRequiredVersion) ".")
    as [[m ds]|p] eqn:Hload; [|vm_compute in Hload; discriminate].
  exists m, ds. split; [reflexivity|].
  rewrite (required_core_in_encounter_order
             (Hcl := library) (Env := collaborators withRequiredVersion) "." m ds Hload).
  vm_compute. reflexivity.
Defined.


Lemma provider_block_records_dependency_witness :
  Labels withBadVersion = ["aws"]
  /\ exists s',
       providerBlock withBadVersion emptyState = Ok (tt, s')
       /\ is_Some (RequiredProviders (smod s') !! "aws").
Proof.
  split; [reflexivity|].
  destruct (provider_block_records_dependency (Hcl := library)
              withBadVersion emptyState "aws" []
              (list_to_map [attribute "version" notAString]) [] []
              eq_refl eq_refl) as (s' & Hrun & Hsome & _).
  exists s'. by split.
Defined.

(** ** The claims that the code does not meet as they are stated *)

(** C7 as stated fails: a [required_version] attribute that does not
    decode as a string is met by the run, and [RequiredCore] stays
    empty. *)
Lemma required_version_not_recorded :
  exists m ds,
    loadModule (Hcl := library) (Env := collaborators withBadRequiredVersion) "." = Ok (m, ds)
    /\ length (requiredVersionAttributes
                 (Hcl := library) (Env := collaborators withBadRequiredVersion) ".") = 1
    /\ length (RequiredCore m) = 0.
Proof.
  eexists _, _. split; [vm_compute; reflexivity|]. split; reflexivity.
Qed.


(** ** The further properties on concrete modules *)

Lemma empty_directory_reported_witness :
  loadModule (Hcl := library) (Env := collaborators emptyDirectory) "." =
  Ok (newModule ".",
      [diagnosticHCL (Env := collaborators emptyDirectory)
         (noConfigurationFiles ".")]).
Proof.
  exact (proj1 (empty_directory_reported
                  (Hcl := library) (Env := collaborators emptyDirectory)
                  "." [] eq_refl)).
Defined.

Lemma override_files_not_read_witness :
  loadModule (Hcl := library) (Env := collaborators overridesOnly) "." =
  Ok (newModule ".",
      [diagnosticHCL (Env := collaborators overridesOnly)
         (warningDiag "Skipped a hidden file")]).
Proof.
  exact (override_files_not_read
           (Hcl := library) (Env := collaborators overridesOnly)
           "." "main_override.tf" [] [warningDiag "Skipped a hidden file"]
           eq_refl).
Defined.

Lemma json_suffix_selects_parser_witness :
  parseFile (Hcl := library) (Env := collaborators emptyDirectory) "main.tf.json"
  = ParseJSONFile (Hcl := library) (Collaborators := collaborators emptyDirectory)
      "main.tf.json".
Proof.
  apply (proj1 (proj2 (json_suffix_selects_parser
                         (Hcl := library) (Env := collaborators emptyDirectory)
                         "main.tf.json"))).
  by exists "main.tf".
Defined.


Lemma well_formed_run_returns_witness :
  forallb (runsToEnd (Hcl := library))
    (allBlocks (Hcl := library) (Env := collaborators twiceDeclared) ".") = true
  /\ exists m ds,
       loadModule (Hcl := library) (Env := collaborators twiceDeclared) "."
       = Ok (m, ds).
Proof.
  split; [vm_compute; reflexivity|].
  apply (well_formed_run_returns
           (Hcl := library) (Env := collaborators twiceDeclared) ".").
  vm_compute. reflexivity.
Defined.


Lemma unhandled_block_type_panics_witness :
  Type_ moduleCall = "module"
  /\ processBlock (Hcl := library) (Env := collaborators (directory []))
       moduleCall emptyState = Ok (tt, emptyState).
Proof.
  split; [reflexivity|].
  apply (proj1 (unhandled_block_type_panics
                  (Hcl := library) (Env := collaborators (directory []))
                  moduleCall emptyState)).
  reflexivity.
Defined.


Lemma provider_block_appends_version_witness :
  Type_ withVersion = "provider"
  /\ Labels withVersion = ["aws"]
  /\ exists s',
       processBlock (Hcl := library) (Env := collaborators (directory []))
         withVersion emptyState = Ok (tt, s')
       /\ RequiredProviders (smod s') !! "aws" = Some ["~> 2.0"].
Proof.
  split; [reflexivity|]. split; [reflexivity|].
  destruct (provider_block_appends_version
              (Hcl := library) (Env := collaborators (directory []))
              withVersion emptyState "aws" [] eq_refl eq_refl)
    as (s' & Hrun & Hl & _).
  exists s'. split; [exact Hrun|]. rewrite Hl. vm_compute. reflexivity.
Defined.


Lemma block_writes_own_collection_witness :
  exists s',
    processBlock (Hcl := library) (Env := collaborators (directory []))
      withoutProvider emptyState = Ok (tt, s')
    /\ Variables (smod s') = Variables (smod emptyState)
    /\ DataResources (smod s') = DataResources (smod emptyState).
Proof.
  destruct (processBlock (Hcl := library) (Env := collaborators (directory []))
              withoutProvider emptyState)
    as [[[] s']|p] eqn:Hrun; [|vm_compute in Hrun; discriminate].
  exists s'. split; [reflexivity|].
  destruct (block_writes_own_collection
              (Hcl := library) (Env := collaborators (directory []))
              withoutProvider emptyState s' Hrun)
    as (_ & _ & Hv & _ & _ & Hd & _).
  split; [apply Hv|apply Hd]; vm_compute; discriminate.
Defined.

Lemma default_follows_json_round_trip_witness :
  Labels withKnownDefault = ["x"]
  /\ IsWhollyKnown (Known "1") = true
  /\ exists s',
       variableBlock (Hcl := library) (Env := collaborators (directory []))
         withKnownDefault emptyState = Ok (tt, s')
       /\ Default <$> Variables (smod s') !! "x" = Some (Some "1").
Proof.
  split; [reflexivity|]. split; [reflexivity|].
  pose proof (default_follows_json_round_trip
                (Hcl := library) (Env := collaborators (directory []))
                withKnownDefault emptyState "x" []
                (list_to_map [attribute "default" (literal "1")])
                [] [] (attr "default" (literal "1")) (Known "1") []
                eq_refl eq_refl ltac:(vm_compute; reflexivity)
                eq_refl eq_refl) as W.
  hnf in W. destruct W as (s' & Hrun & Hd & _).
  exists s'. split; [exact Hrun|exact Hd].
Defined.

Lemma first_resource_declaration_kept_witness :
  exists m ds,
    loadModule (Hcl := library) (Env := collaborators resourceTwice) "."
    = Ok (m, ds)
    /\ Provider <$> ManagedResources m !! "managed:null_resource.a"
       = Some {| ProvName := "null"; Alias := "" |}.
Proof.
  destruct (loadModule (Hcl := library) (Env := collaborators resourceTwice) ".")
    as [[m ds]|p] eqn:Hload; [|vm_compute in Hload; discriminate].
  exists m, ds. split; [reflexivity|].
  change (ManagedResources m) with (resourcesMap ManagedResourceMode m).
  rewrite (first_resource_declaration_kept
             (Hcl := library) (Env := collaborators resourceTwice)
             "." m ds Hload ManagedResourceMode "managed:null_resource.a").
  vm_compute. reflexivity.
Defined.

Lemma entries_come_from_blocks_witness :
  exists m ds v,
    loadModule (Hcl := library) (Env := collaborators twiceDeclared) "."
    = Ok (m, ds)
    /\ Variables m !! "x" = Some v
    /\ VarName v = "x".
Proof.
  destruct (loadModule (Hcl := library) (Env := collaborators twiceDeclared) ".")
    as [[m ds]|p] eqn:Hload; [|vm_compute in Hload; discriminate].
  destruct (Variables m !! "x") as [v|] eqn:Hv;
    [|vm_compute in Hload; simplify_eq; vm_compute in Hv; discriminate].
  exists m, ds, v. split; [reflexivity|]. split; [exact Hv|].
  exact (proj1 (proj1 (entries_come_from_blocks
                         (Hcl := library) (Env := collaborators twiceDeclared)
                         "." m ds Hload) "x" v Hv)).
Defined.



End Witnesses.
